(** * Registration service: age eligibility and the registration store

    A shallow embedding of [backend-nodejs/server.js] (the Express
    handlers, [calculateAge], [validateAge], the request validators and
    the Mongoose collection they write to) and of the age check of
    [frontend/src/components/RegistrationForm.jsx], followed by the
    properties the specification states about them. *)

From Stdlib Require Import ZArith Lia Bool Ascii String List.
From stdpp Require Import base option list gmap strings fin_maps pretty.

Local Open Scope string_scope.
Local Open Scope list_scope.
Local Open Scope Z_scope.

(** ** JavaScript numbers

    Every number the handlers compute with is an integer or [NaN]
    (the result of converting a non-numeric string, or a field of an
    invalid [Date]). *)

Module Js.

Inductive number : Type :=
| NaN
| Num (z : Z).

#[global] Instance number_eq_dec : EqDecision number.
Proof. solve_decision. Defined.

(** [a - b] *)
Definition sub (a b : number) : number :=
  match a, b with
  | Num x, Num y => Num (x - y)
  | _, _ => NaN
  end.

(** [a < b]: false as soon as one side is [NaN]. *)
Definition lt (a b : number) : bool :=
  match a, b with
  | Num x, Num y => x <? y
  | _, _ => false
  end.

(** [a > b] *)
Definition gt (a b : number) : bool := lt b a.

(** [a === b] on numbers: [NaN] equals nothing. *)
Definition strict_eq (a b : number) : bool :=
  match a, b with
  | Num x, Num y => x =? y
  | _, _ => false
  end.

(** A field of a JSON request body: absent, or a string (the form
    posts every field as a string, the schema stores them as strings). *)
Inductive value : Type :=
| undefined
| str (s : string).

#[global] Instance value_eq_dec : EqDecision value.
Proof. solve_decision. Defined.

(** Truthiness, the meaning of [!v] and [v && ...]. *)
Definition truthy (v : value) : bool :=
  match v with
  | undefined => false
  | str s => negb (String.eqb s "")
  end.

(** White space of the 8-bit range: TAB, LF, VT, FF, CR, SP, NBSP. *)
Definition isSpace (c : ascii) : bool :=
  let n := N_of_ascii c in
  ((9 <=? n) && (n <=? 13) || (n =? 32) || (n =? 160))%N.

Fixpoint trimStart (s : string) : string :=
  match s with
  | String c r => if isSpace c then trimStart r else s
  | EmptyString => EmptyString
  end.

Fixpoint trimEnd (s : string) : string :=
  match s with
  | String c r =>
      match trimEnd r with
      | EmptyString => if isSpace c then EmptyString else String c EmptyString
      | r' => String c r'
      end
  | EmptyString => EmptyString
  end.

(** [String.prototype.trim] *)
Definition trim (s : string) : string := trimEnd (trimStart s).

Definition digit (c : ascii) : option Z :=
  let n := Z.of_N (N_of_ascii c) in
  if (48 <=? n) && (n <=? 57) then Some (n - 48) else None.

(** The value of a string made of decimal digits only. *)
Fixpoint digits (acc : Z) (s : string) : option Z :=
  match s with
  | EmptyString => Some acc
  | String c r =>
      match digit c with
      | Some d => digits (10 * acc + d) r
      | None => None
      end
  end.

Definition unsignedDecimal (s : string) : number :=
  match s with
  | EmptyString => NaN
  | _ => match digits 0 s with Some z => Num z | None => NaN end
  end.

Definition neg (a : number) : number :=
  match a with Num z => Num (- z) | NaN => NaN end.

Definition signedDecimal (s : string) : number :=
  match s with
  | String "+" r => unsignedDecimal r
  | String "-" r => neg (unsignedDecimal r)
  | _ => unsignedDecimal s
  end.

(** [ToNumber] on a body field. The fragment modelled is the one the
    request validators admit: optional white space around an optionally
    signed run of decimal digits (the empty string is [0]). Numerals with
    a fraction, an exponent or a radix prefix lie outside the fragment:
    the embedding yields [NaN] on them, and no statement below depends
    on that value (see [isInt_ToNumber] for the validated fields). *)
Definition ToNumber (v : value) : number :=
  match v with
  | undefined => NaN
  | str s =>
      let t := trim s in
      if String.eqb t "" then Num 0 else signedDecimal t
  end.

Definition hexDigit (c : ascii) : option Z :=
  let n := Z.of_N (N_of_ascii c) in
  if (48 <=? n) && (n <=? 57) then Some (n - 48)
  else if (97 <=? n) && (n <=? 102) then Some (n - 87)
  else if (65 <=? n) && (n <=? 70) then Some (n - 55)
  else None.

(** The value of the longest prefix of digits of the radix, if there is
    a digit at all. *)
Fixpoint digitPrefix (radix : Z) (digitOf : ascii -> option Z)
    (acc : Z) (seen : bool) (s : string) : option Z :=
  match s with
  | String c r =>
      match digitOf c with
      | Some d => digitPrefix radix digitOf (radix * acc + d) true r
      | None => if seen then Some acc else None
      end
  | EmptyString => if seen then Some acc else None
  end.

Definition prefixNumber (s : string) : number :=
  let parsed :=
    match s with
    | String "0" (String "x" r) | String "0" (String "X" r) =>
        digitPrefix 16 hexDigit 0 false r
    | _ => digitPrefix 10 digit 0 false s
    end in
  match parsed with Some z => Num z | None => NaN end.

(** [parseInt(v)] without a radix: leading white space is skipped, a
    sign is read, then the longest run of digits, hexadecimal after
    [0x]; no digit gives [NaN] ([parseInt(undefined)] reads the text
    "undefined"). *)
Definition parseInt (v : value) : number :=
  match v with
  | undefined => NaN
  | str s =>
      match trimStart s with
      | String "+" r => prefixNumber r
      | String "-" r => neg (prefixNumber r)
      | t => prefixNumber t
      end
  end.

End Js.

(** ** The [Date] object, at the granularity of local calendar days

    [calculateAge] only reads [getFullYear], [getMonth] and [getDate],
    which depend on the local day a [Date] falls on. A [Date] is
    therefore represented by its local day number (days since
    1970-01-01), or [NaN] for an invalid date. The definitions are the
    day-number algorithms of ECMAScript (sec. 21.4.1). *)

Module Date.
Import Js.

Definition DaysInYear (y : Z) : Z :=
  if negb (y mod 4 =? 0) then 365
  else if negb (y mod 100 =? 0) then 366
  else if negb (y mod 400 =? 0) then 365
  else 366.

Definition DayFromYear (y : Z) : Z :=
  365 * (y - 1970) + (y - 1969) / 4 - (y - 1901) / 100 + (y - 1601) / 400.

(** Upward search for the year of day [t], starting from a year that
    begins on or before [t]. *)
Fixpoint yearSearch (fuel : nat) (y t : Z) : Z :=
  match fuel with
  | O => y
  | S f => if DayFromYear (y + 1) <=? t then yearSearch f (y + 1) t else y
  end.

(** The largest [y] with [DayFromYear y <= t]. *)
Definition YearFromTime (t : Z) : Z :=
  let y0 := 1970 + (if 0 <=? t then t / 366 else t / 365) in
  yearSearch (Z.to_nat (Z.abs t / 365 + 1)) y0 t.

(** [InLeapYear], as 0 or 1. *)
Definition leapOfYear (y : Z) : Z := if DaysInYear y =? 366 then 1 else 0.

Definition InLeapYear (t : Z) : Z := leapOfYear (YearFromTime t).

Definition DayWithinYear (t : Z) : Z := t - DayFromYear (YearFromTime t).

(** Month index, 0 for January. *)
Definition MonthFromTime (t : Z) : Z :=
  let d := DayWithinYear t in
  let l := InLeapYear t in
  if d <? 31 then 0
  else if d <? 59 + l then 1
  else if d <? 90 + l then 2
  else if d <? 120 + l then 3
  else if d <? 151 + l then 4
  else if d <? 181 + l then 5
  else if d <? 212 + l then 6
  else if d <? 243 + l then 7
  else if d <? 273 + l then 8
  else if d <? 304 + l then 9
  else if d <? 334 + l then 10
  else 11.

(** Day of the month, from 1. *)
Definition DateFromTime (t : Z) : Z :=
  let d := DayWithinYear t in
  let l := InLeapYear t in
  match MonthFromTime t with
  | 0 => d + 1
  | 1 => d - 30
  | 2 => d - 58 - l
  | 3 => d - 89 - l
  | 4 => d - 119 - l
  | 5 => d - 150 - l
  | 6 => d - 180 - l
  | 7 => d - 211 - l
  | 8 => d - 242 - l
  | 9 => d - 272 - l
  | 10 => d - 303 - l
  | _ => d - 333 - l
  end.

(** First day of month [mn] (0..11) within a year, [l] its leap flag. *)
Definition monthStart (mn l : Z) : Z :=
  match mn with
  | 0 => 0
  | 1 => 31
  | 2 => 59 + l
  | 3 => 90 + l
  | 4 => 120 + l
  | 5 => 151 + l
  | 6 => 181 + l
  | 7 => 212 + l
  | 8 => 243 + l
  | 9 => 273 + l
  | 10 => 304 + l
  | _ => 334 + l
  end.

(** [MakeDay(year, month, date)]: months beyond 0..11 carry into the
    year, days beyond the month's length carry into the next months. *)
Definition MakeDay (year month date : Z) : Z :=
  let ym := year + month / 12 in
  let mn := month mod 12 in
  DayFromYear ym + monthStart mn (leapOfYear ym) + date - 1.

(** [TimeClip]: a time value further than 10^8 days from the epoch is
    not a date. *)
Definition TimeClip (t : Z) : number :=
  if Z.abs t <=? 100000000 then Num t else NaN.

(** A [Date] object: its local day number, [NaN] when invalid. *)
Definition t := number.

(** [new Date(year, month, day)]; years 0..99 mean 1900..1999. *)
Definition make (year month day : number) : t :=
  match year, month, day with
  | Num y, Num m, Num d =>
      let yr := if (0 <=? y) && (y <=? 99) then 1900 + y else y in
      TimeClip (MakeDay yr m d)
  | _, _, _ => NaN
  end.

Definition getFullYear (d : t) : number :=
  match d with Num t => Num (YearFromTime t) | NaN => NaN end.

Definition getMonth (d : t) : number :=
  match d with Num t => Num (MonthFromTime t) | NaN => NaN end.

Definition getDate (d : t) : number :=
  match d with Num t => Num (DateFromTime t) | NaN => NaN end.

(** Length of month [m] (1..12) of year [y], for stating which inputs
    are calendar dates. *)
Definition daysInMonth (y m : Z) : Z :=
  match m with
  | 2 => 28 + leapOfYear y
  | 4 | 6 | 9 | 11 => 30
  | _ => 31
  end.

End Date.

(** ** The server: [backend-nodejs/server.js] *)

Module Server.
Import Js.

(** *** Request bodies *)

Record DateOfBirth : Type := {
  year : value;
  month : value;
  day : value
}.

Record TimeOfBirth : Type := {
  hour : value;
  minute : value
}.

(** The JSON body of [POST /api/register] and [PUT /api/users/:id];
    the two nested objects may be missing altogether. *)
Record Body : Type := {
  fullName : value;
  dateOfBirth : option DateOfBirth;
  timeOfBirth : option TimeOfBirth;
  birthPlace : value;
  gender : value;
  height : value;
  weight : value;
  astrological_sign : value
}.

(** A nested path such as [dateOfBirth.year], read the way the
    validators read it: undefined when the object is missing. *)
Definition path {A : Type} (o : option A) (field : A -> value) : value :=
  match o with
  | Some a => field a
  | None => undefined
  end.

(** *** Utility functions *)

(** [calculateAge(year, month, day)]; [now] is the local day number of
    the clock, the value [new Date()] reads. *)
Definition calculateAge (now : Z) (year month day : value) : number :=
  let birthDate :=
    Date.make (ToNumber year) (sub (parseInt month) (Num 1)) (ToNumber day) in
  let today : Date.t := Num now in
  let age := sub (Date.getFullYear today) (Date.getFullYear birthDate) in
  let monthDiff := sub (Date.getMonth today) (Date.getMonth birthDate) in
  if lt monthDiff (Num 0)
     || (strict_eq monthDiff (Num 0)
         && lt (Date.getDate today) (Date.getDate birthDate))
  then sub age (Num 1)
  else age.

Definition msgMen : string := "Men must be at least 21 years old".
Definition msgWomen : string := "Women must be at least 18 years old".
Definition msgMaximum : string :=
  "Maximum age for both genders is 40 years. Please visit our other site for registration.".

(** [validateAge(age, gender)]: three independent tests, each pushing
    its message onto [errors]. *)
Definition validateAge (age : number) (gender : value) : list string :=
  let errors : list string := [] in
  let errors :=
    if bool_decide (gender = str "Male") && lt age (Num 21)
    then errors ++ [msgMen] else errors in
  let errors :=
    if bool_decide (gender = str "Female") && lt age (Num 18)
    then errors ++ [msgWomen] else errors in
  let errors :=
    if gt age (Num 40)
    then errors ++ [msgMaximum] else errors in
  errors.

(** *** Validation middleware (express-validator) *)

(** A field is validated through its string form. *)
Definition toString (v : value) : string :=
  match v with undefined => "" | str s => s end.

Definition notEmpty (v : value) : bool :=
  negb (String.eqb (toString v) "").

Definition isLength (min max : nat) (v : value) : bool :=
  let n := String.length (toString v) in
  (min <=? n)%nat && (n <=? max)%nat.

Definition isLetter (c : ascii) : bool :=
  let n := N_of_ascii c in
  ((65 <=? n) && (n <=? 90) || (97 <=? n) && (n <=? 122))%N.

(** [/^[a-zA-Z\s]+$/] *)
Definition matchesName (v : value) : bool :=
  match toString v with
  | EmptyString => false
  | s => forallb (fun c => isLetter c || isSpace c) (list_ascii_of_string s)
  end.

(** [isInt({min, max})]: an optionally signed run of digits whose
    value lies in the range. *)
Definition isInt (min max : Z) (v : value) : bool :=
  match signedDecimal (toString v) with
  | Num z => (min <=? z) && (z <=? max)
  | NaN => false
  end.

Definition isIn (allowed : list string) (v : value) : bool :=
  existsb (String.eqb (toString v)) allowed.

(** A validation chain: every validator of the chain runs, each failing
    one contributes its message. *)
Definition Chain : Type := list ((value -> bool) * string).

Definition runChain (c : Chain) (v : value) : list string :=
  flat_map
    (fun step : (value -> bool) * string =>
       if fst step v then [] else [snd step])
    c.

(** [.optional()]: the chain is skipped for an undefined field. *)
Definition optional (c : Chain) (v : value) : list string :=
  match v with undefined => [] | _ => runChain c v end.

Definition months : list string :=
  ["01"; "02"; "03"; "04"; "05"; "06"; "07"; "08"; "09"; "10"; "11"; "12"].

(** [registrationValidation] followed by [validationResult(req)]: the
    messages of all failed validators. [bootYear] is
    [new Date().getFullYear()], read once when the module is loaded. *)
Definition registrationValidation (bootYear : Z) (b : Body) : list string :=
  runChain
    [ (notEmpty, "Full name is required");
      (isLength 2 50, "Full name must be between 2 and 50 characters");
      (matchesName, "Full name can only contain letters and spaces") ]
    (fullName b)
  ++ runChain
    [ (notEmpty, "Birth year is required");
      (isInt 1940 bootYear, "Please enter a valid birth year") ]
    (path (dateOfBirth b) year)
  ++ runChain
    [ (notEmpty, "Birth month is required");
      (isIn months, "Please select a valid month") ]
    (path (dateOfBirth b) month)
  ++ runChain
    [ (notEmpty, "Birth day is required");
      (isInt 1 31, "Please enter a valid day") ]
    (path (dateOfBirth b) day)
  ++ runChain
    [ (notEmpty, "Gender is required");
      (isIn ["Male"; "Female"], "Gender must be Male or Female") ]
    (gender b)
  ++ optional
    [ (isLength 0 100, "Birth place must be less than 100 characters") ]
    (birthPlace b)
  ++ optional
    [ (isInt 0 23, "Hour must be between 0 and 23") ]
    (path (timeOfBirth b) hour)
  ++ optional
    [ (isInt 0 59, "Minute must be between 0 and 59") ]
    (path (timeOfBirth b) minute).

(** *** The [User] collection (Mongoose) *)

Module Schema.

(** A stored document. String paths hold a string or are unset; [age]
    is a Number; [createdAt] is the clock reading at creation. *)
Record User : Type := {
  fullName : value;
  dateOfBirth : DateOfBirth;
  timeOfBirth : option TimeOfBirth;
  birthPlace : value;
  gender : value;
  height : value;
  weight : value;
  astrological_sign : value;
  age : number;
  createdAt : Z;
  status : string
}.

(** [required: true] on a String path: set and not the empty string. *)
Definition required (v : value) : bool := truthy v.

(** [enum: [...]] on a String path; an unset path is not checked. *)
Definition enum (allowed : list string) (v : value) : bool :=
  match v with
  | undefined => true
  | str s => existsb (String.eqb s) allowed
  end.

(** The validators and casts of the paths the handlers write, as run by
    [save()] and by [runValidators]: the paths that fail ([NaN] does
    not cast to Number). *)
Definition validatePaths (fullName : value) (dateOfBirth : DateOfBirth)
    (gender : value) (age : number) : list string :=
  (if required fullName then [] else ["fullName"])
  ++ (if required (year dateOfBirth) then [] else ["dateOfBirth.year"])
  ++ (if required (month dateOfBirth) then [] else ["dateOfBirth.month"])
  ++ (if required (day dateOfBirth) then [] else ["dateOfBirth.day"])
  ++ (if required gender && enum ["Male"; "Female"] gender
      then [] else ["gender"])
  ++ (match age with NaN => ["age"] | Num _ => [] end).

(** Validation of a whole document. *)
Definition validate (u : User) : list string :=
  validatePaths (fullName u) (dateOfBirth u) (gender u) (age u)
  ++ (if existsb (String.eqb (status u)) ["active"; "inactive"; "pending"]
      then [] else ["status"]).

End Schema.

Abbreviation User := Schema.User.

(** The collection: documents by [_id]. The database is taken to
    answer every operation; its failures (the remaining [500] answers)
    are not modelled. *)
Abbreviation Collection := (gmap positive User).

(** *** Responses *)

Inductive Payload : Type :=
| Details (error : string) (details : list string)
| Message (error message : string)
| Error (error : string)
| MissingFields (error : string) (required : list string)
| Registered (message : string) (id : positive) (user : User)
| Updated (message : string) (user : User)
| Deleted (message : string) (id : positive) (fullName : value)
| AgeReport (age : number) (isValid : bool) (errors : list string).

Record Response : Type := {
  status : Z;
  json : Payload
}.

(** The clock a handler reads: the local calendar day (for
    [new Date()] in [calculateAge]) and the time stamp (for the
    [createdAt] default). *)
Record Clock : Type := {
  today : Z;
  timestamp : Z
}.

(** [v?.trim()] *)
Definition trimValue (v : value) : value :=
  match v with undefined => undefined | str s => str (trim s) end.

(** The filter of the duplicate lookup: same trimmed name and same three
    date components. *)
Definition sameRegistrant (name : string) (dob : DateOfBirth) (u : User) : Prop :=
  Schema.fullName u = str name
  /\ year (Schema.dateOfBirth u) = year dob
  /\ month (Schema.dateOfBirth u) = month dob
  /\ day (Schema.dateOfBirth u) = day dob.

#[global] Instance sameRegistrant_dec name dob u :
  Decision (sameRegistrant name dob u).
Proof. unfold sameRegistrant. apply _. Defined.

(** [User.findOne(filter)] as a truth value: is there such a document? *)
Definition findOne (name : string) (dob : DateOfBirth) (db : Collection) : bool :=
  bool_decide (map_Exists (fun _ u => sameRegistrant name dob u) db).

Definition validationFailed (errors : list string) : Response :=
  {| status := 400; json := Details "Validation failed" errors |}.

Definition ageValidationFailed (errors : list string) : Response :=
  {| status := 400; json := Details "Age validation failed" errors |}.

Definition databaseValidationFailed (paths : list string) : Response :=
  {| status := 400; json := Details "Database validation failed" paths |}.

Definition internalError (message : string) : Response :=
  {| status := 500; json := Message "Internal server error" message |}.

Definition userExists : Response :=
  {| status := 409;
     json := Message "User already exists"
               "A user with the same name and date of birth already exists" |}.

(** [POST /api/register]. The two [500] branches are the [catch] block
    answering the TypeError of [dateOfBirth.year] or [fullName.trim()]
    on an undefined value. The [201] response echoes the identifier and
    fields of the saved document. *)
Definition register (bootYear : Z) (clock : Clock) (b : Body) (db : Collection)
  : Response * Collection :=
  let errors := registrationValidation bootYear b in
  if negb (bool_decide (errors = [])) then (validationFailed errors, db)
  else
    match dateOfBirth b with
    | None => (internalError "Registration failed. Please try again.", db)
    | Some dob =>
        let age := calculateAge (today clock) (year dob) (month dob) (day dob) in
        let ageValidationErrors := validateAge age (gender b) in
        if (0 <? length ageValidationErrors)%nat then
          (ageValidationFailed ageValidationErrors, db)
        else
          match fullName b with
          | undefined =>
              (internalError "Registration failed. Please try again.", db)
          | str name =>
              if findOne (trim name) dob db then (userExists, db)
              else
                let newUser := {|
                  Schema.fullName := str (trim name);
                  Schema.dateOfBirth := dob;
                  Schema.timeOfBirth := timeOfBirth b;
                  Schema.birthPlace := trimValue (birthPlace b);
                  Schema.gender := gender b;
                  Schema.height := height b;
                  Schema.weight := weight b;
                  Schema.astrological_sign := astrological_sign b;
                  Schema.age := age;
                  Schema.createdAt := timestamp clock;
                  Schema.status := "active"
                |} in
                match Schema.validate newUser with
                | [] =>
                    let id := fresh (dom db) in
                    ({| status := 201;
                        json := Registered "User registered successfully"
                                  id newUser |},
                     <[id := newUser]> db)
                | validationErrors =>
                    (databaseValidationFailed validationErrors, db)
                end
          end
    end.

(** A key of an update document whose value is undefined is dropped:
    the stored value stays. *)
Definition setPath (new old : value) : value :=
  match new with undefined => old | _ => new end.

(** The update document of [PUT /api/users/:id] applied to a stored
    document. *)
Definition applyUpdate (name : string) (dob : DateOfBirth) (b : Body)
    (age : number) (old : User) : User := {|
  Schema.fullName := str (trim name);
  Schema.dateOfBirth := dob;
  Schema.timeOfBirth :=
    match timeOfBirth b with
    | Some t => Some t
    | None => Schema.timeOfBirth old
    end;
  Schema.birthPlace := setPath (trimValue (birthPlace b)) (Schema.birthPlace old);
  Schema.gender := setPath (gender b) (Schema.gender old);
  Schema.height := setPath (height b) (Schema.height old);
  Schema.weight := setPath (weight b) (Schema.weight old);
  Schema.astrological_sign :=
    setPath (astrological_sign b) (Schema.astrological_sign old);
  Schema.age := age;
  Schema.createdAt := Schema.createdAt old;
  Schema.status := Schema.status old
|}.

(** [PUT /api/users/:id]; the route parameter is [None] when it is not
    an ObjectId (the cast of the query fails). [findByIdAndUpdate] casts
    the query, runs the validators of the written paths, then updates
    the document if there is one. *)
Definition update (bootYear : Z) (clock : Clock) (id : option positive)
    (b : Body) (db : Collection) : Response * Collection :=
  let errors := registrationValidation bootYear b in
  if negb (bool_decide (errors = [])) then (validationFailed errors, db)
  else
    match dateOfBirth b with
    | None => (internalError "Update failed. Please try again.", db)
    | Some dob =>
        let age := calculateAge (today clock) (year dob) (month dob) (day dob) in
        let ageValidationErrors := validateAge age (gender b) in
        if (0 <? length ageValidationErrors)%nat then
          (ageValidationFailed ageValidationErrors, db)
        else
          match fullName b with
          | undefined =>
              (internalError "Update failed. Please try again.", db)
          | str name =>
              match id with
              | None =>
                  ({| status := 400; json := Error "Invalid user ID format" |},
                   db)
              | Some i =>
                  match
                    Schema.validatePaths (str (trim name)) dob (gender b) age
                  with
                  | [] =>
                      match db !! i with
                      | None =>
                          ({| status := 404; json := Error "User not found" |},
                           db)
                      | Some old =>
                          let updatedUser := applyUpdate name dob b age old in
                          ({| status := 200;
                              json := Updated "User updated successfully"
                                        updatedUser |},
                           <[i := updatedUser]> db)
                      end
                  | validationErrors =>
                      (databaseValidationFailed validationErrors, db)
                  end
              end
          end
    end.

(** [DELETE /api/users/:id] *)
Definition delete (id : option positive) (db : Collection)
  : Response * Collection :=
  match id with
  | None => ({| status := 400; json := Error "Invalid user ID format" |}, db)
  | Some i =>
      match db !! i with
      | None => ({| status := 404; json := Error "User not found" |}, db)
      | Some deletedUser =>
          ({| status := 200;
              json := Deleted "User deleted successfully" i
                        (Schema.fullName deletedUser) |},
           base.delete i db)
      end
  end.

(** The body of [POST /api/validate-age]. *)
Record AgeQuery : Type := {
  q_year : value;
  q_month : value;
  q_day : value;
  q_gender : value
}.

(** [POST /api/validate-age]: no validation chain in front of it. The
    constant [ageRequirements] object of the answer is left out. *)
Definition validate_age (clock : Clock) (q : AgeQuery) : Response :=
  if negb (truthy (q_year q)) || negb (truthy (q_month q))
     || negb (truthy (q_day q)) || negb (truthy (q_gender q))
  then
    {| status := 400;
       json := MissingFields "Missing required fields"
                 ["year"; "month"; "day"; "gender"] |}
  else
    let age := calculateAge (today clock) (q_year q) (q_month q) (q_day q) in
    let validationErrors := validateAge age (q_gender q) in
    {| status := 200;
       json := AgeReport age (length validationErrors =? 0)%nat validationErrors |}.

(** *** The service as a transition system *)

(** The requests whose handlers write to the collection or compute
    eligibility; the GET routes only read. *)
Inductive Request : Type :=
| PostRegister (b : Body)
| PutUser (id : option positive) (b : Body)
| DeleteUser (id : option positive)
| PostValidateAge (q : AgeQuery).

Definition handle (bootYear : Z) (clock : Clock) (r : Request) (db : Collection)
  : Response * Collection :=
  match r with
  | PostRegister b => register bootYear clock b db
  | PutUser id b => update bootYear clock id b db
  | DeleteUser id => delete id db
  | PostValidateAge q => (validate_age clock q, db)
  end.

(** The collections a server started in year [bootYear] on an empty
    database can hold. *)
Inductive reachable (bootYear : Z) : Collection -> Prop :=
| reachable_empty : reachable bootYear ∅
| reachable_step clock r db :
    reachable bootYear db ->
    reachable bootYear (snd (handle bootYear clock r db)).

End Server.

(** ** The client: the age check of [RegistrationForm.jsx] *)

Module Client.
Import Js.

(** The [formData] state; every field is a string, [''] until the user
    fills it in. *)
Record FormData : Type := {
  fullName : string;
  dateOfBirth : Server.DateOfBirth;
  timeOfBirth : Server.TimeOfBirth;
  birthPlace : string;
  gender : string;
  height : string;
  weight : string;
  astrological_sign : string
}.

Definition msgMen : string := "Men must be at least 21 years old".
Definition msgWomen : string := "Women must be at least 18 years old".
Definition msgMaximum : string :=
  "Maximum age for both genders is 40 years. If above 40, please visit our other site.".

(** The effect that runs when [dateOfBirth] or [gender] changes: the
    new value of the [ageValidation] state, [ageValidation] being its
    value before. An incomplete date leaves the state as it is. *)
Definition ageEffect (now : Z) (formData : FormData) (ageValidation : string)
  : string :=
  let year := Server.year (dateOfBirth formData) in
  let month := Server.month (dateOfBirth formData) in
  let day := Server.day (dateOfBirth formData) in
  if truthy year && truthy month && truthy day then
    let birthDate :=
      Date.make (ToNumber year) (sub (parseInt month) (Num 1)) (ToNumber day) in
    let today : Date.t := Num now in
    let age := sub (Date.getFullYear today) (Date.getFullYear birthDate) in
    let monthDiff := sub (Date.getMonth today) (Date.getMonth birthDate) in
    let age :=
      if lt monthDiff (Num 0)
         || (strict_eq monthDiff (Num 0)
             && lt (Date.getDate today) (Date.getDate birthDate))
      then sub age (Num 1)
      else age in
    if String.eqb (gender formData) "Male" && lt age (Num 21) then msgMen
    else if String.eqb (gender formData) "Female" && lt age (Num 18) then msgWomen
    else if gt age (Num 40) then msgMaximum
    else ""
  else ageValidation.

(** [disabled={!!ageValidation}] on the submit button. *)
Definition submitDisabled (ageValidation : string) : bool :=
  negb (String.eqb ageValidation "").

End Client.

(** ** Vocabulary of the specification *)

Module Spec.
Import Js.

(** [(m1, d1)] precedes [(m2, d2)] in the calendar year. *)
Definition precedes (m1 d1 m2 d2 : Z) : bool :=
  (m1 <? m2) || ((m1 =? m2) && (d1 <? d2)).

(** A birth date the calendar has, in a year [new Date] takes as
    written and whose days are within the range of [Date]. *)
Definition calendarDate (y m d : Z) : Prop :=
  100 <= y <= 275000 /\ 1 <= m <= 12 /\ 1 <= d <= Date.daysInMonth y m.

(** What the client reports, as a list of violation messages: the
    [ageValidation] text when there is one. *)
Definition clientViolations (ageValidation : string) : list string :=
  if String.eqb ageValidation "" then [] else [ageValidation].

(** The stored age of a document passes the eligibility rule for its
    stored gender. *)
Definition eligible (u : Server.User) : Prop :=
  Server.validateAge (Server.Schema.age u) (Server.Schema.gender u) = [].

(** The same, read as bounds: the stored age is an integer within the
    range of the stored gender. *)
Definition withinBounds (u : Server.User) : Prop :=
  exists a : Z,
    Server.Schema.age u = Num a
    /\ (Server.Schema.gender u = str "Male" /\ 21 <= a <= 40
        \/ Server.Schema.gender u = str "Female" /\ 18 <= a <= 40).

(** A form whose date of birth is complete. *)
Definition dateComplete (dob : Server.DateOfBirth) : Prop :=
  truthy (Server.year dob) = true
  /\ truthy (Server.month dob) = true
  /\ truthy (Server.day dob) = true.

End Spec.

(** ** Sample requests *)

Module Sample.
Import Js Server.

(** John Doe, born 1984-06-15, as the form posts him. *)
Definition john : Body := {|
  fullName := str "John Doe";
  dateOfBirth := Some {| year := str "1984"; month := str "06"; day := str "15" |};
  timeOfBirth := None;
  birthPlace := str "Pune";
  gender := str "Male";
  height := str "5ft 8in / 173 cms";
  weight := undefined;
  astrological_sign := undefined
|}.

(** The same person with the date of birth changed to 1979-06-15. *)
Definition johnOlder : Body := {|
  fullName := str "John Doe";
  dateOfBirth := Some {| year := str "1979"; month := str "06"; day := str "15" |};
  timeOfBirth := None;
  birthPlace := str "Pune";
  gender := str "Male";
  height := str "5ft 8in / 173 cms";
  weight := undefined;
  astrological_sign := undefined
|}.

(** 15 June 2024, when John is 40, and 16 June 2025, when he is 41. *)
Definition june2024 : Clock :=
  {| today := Date.MakeDay 2024 5 15; timestamp := 1718409600000 |}.

Definition june2025 : Clock :=
  {| today := Date.MakeDay 2025 5 16; timestamp := 1750032000000 |}.

(** The collection after John registered in June 2024. *)
Definition registered : Collection :=
  snd (handle 2024 june2024 (PostRegister john) ∅).

(** The document stored for him, under the first identifier. *)
Definition johnStored : User := {|
  Schema.fullName := str "John Doe";
  Schema.dateOfBirth := {| year := str "1984"; month := str "06"; day := str "15" |};
  Schema.timeOfBirth := None;
  Schema.birthPlace := str "Pune";
  Schema.gender := str "Male";
  Schema.height := str "5ft 8in / 173 cms";
  Schema.weight := undefined;
  Schema.astrological_sign := undefined;
  Schema.age := Num 40;
  Schema.createdAt := 1718409600000;
  Schema.status := "active"
|}.

End Sample.

(** ** The read route [GET /api/users/:id] *)

Module Read.
Import Js Server.

Inductive Payload : Type :=
| Found (user : User)
| Failed (error : string).

Record Response : Type := {
  status : Z;
  json : Payload
}.

(** [GET /api/users/:id]: [findById], the route parameter being [None]
    when it is not an ObjectId. The answer is the document itself. *)
Definition getUser (id : option positive) (db : Collection) : Response :=
  match id with
  | None => {| status := 400; json := Failed "Invalid user ID format" |}
  | Some i =>
      match db !! i with
      | None => {| status := 404; json := Failed "User not found" |}
      | Some user => {| status := 200; json := Found user |}
      end
  end.

End Read.

(** ** The form handlers of [RegistrationForm.jsx] *)

Module Form.
Import Js.

(** The fields the inputs of the form pass to [handleInputChange]. *)
Inductive Field : Type :=
| FullName
| DobYear
| DobMonth
| DobDay
| TobHour
| TobMinute
| BirthPlace
| Gender
| Height
| Weight
| AstrologicalSign.

(** The [field] argument as written at the call site. *)
Definition fieldName (f : Field) : string :=
  match f with
  | FullName => "fullName"
  | DobYear => "dateOfBirth.year"
  | DobMonth => "dateOfBirth.month"
  | DobDay => "dateOfBirth.day"
  | TobHour => "timeOfBirth.hour"
  | TobMinute => "timeOfBirth.minute"
  | BirthPlace => "birthPlace"
  | Gender => "gender"
  | Height => "height"
  | Weight => "weight"
  | AstrologicalSign => "astrological_sign"
  end.

(** The [setFormData] update of [handleInputChange]: a dotted name
    replaces the child inside a copy of its parent object, another name
    replaces the field. *)
Definition setField (f : Field) (v : string) (formData : Client.FormData)
  : Client.FormData :=
  let dob := Client.dateOfBirth formData in
  let tob := Client.timeOfBirth formData in
  let with_dob d := {|
    Client.fullName := Client.fullName formData;
    Client.dateOfBirth := d;
    Client.timeOfBirth := tob;
    Client.birthPlace := Client.birthPlace formData;
    Client.gender := Client.gender formData;
    Client.height := Client.height formData;
    Client.weight := Client.weight formData;
    Client.astrological_sign := Client.astrological_sign formData |} in
  let with_tob t := {|
    Client.fullName := Client.fullName formData;
    Client.dateOfBirth := dob;
    Client.timeOfBirth := t;
    Client.birthPlace := Client.birthPlace formData;
    Client.gender := Client.gender formData;
    Client.height := Client.height formData;
    Client.weight := Client.weight formData;
    Client.astrological_sign := Client.astrological_sign formData |} in
  match f with
  | DobYear =>
      with_dob {| Server.year := str v; Server.month := Server.month dob;
                  Server.day := Server.day dob |}
  | DobMonth =>
      with_dob {| Server.year := Server.year dob; Server.month := str v;
                  Server.day := Server.day dob |}
  | DobDay =>
      with_dob {| Server.year := Server.year dob; Server.month := Server.month dob;
                  Server.day := str v |}
  | TobHour =>
      with_tob {| Server.hour := str v; Server.minute := Server.minute tob |}
  | TobMinute =>
      with_tob {| Server.hour := Server.hour tob; Server.minute := str v |}
  | FullName => {|
      Client.fullName := v;
      Client.dateOfBirth := dob;
      Client.timeOfBirth := tob;
      Client.birthPlace := Client.birthPlace formData;
      Client.gender := Client.gender formData;
      Client.height := Client.height formData;
      Client.weight := Client.weight formData;
      Client.astrological_sign := Client.astrological_sign formData |}
  | BirthPlace => {|
      Client.fullName := Client.fullName formData;
      Client.dateOfBirth := dob;
      Client.timeOfBirth := tob;
      Client.birthPlace := v;
      Client.gender := Client.gender formData;
      Client.height := Client.height formData;
      Client.weight := Client.weight formData;
      Client.astrological_sign := Client.astrological_sign formData |}
  | Gender => {|
      Client.fullName := Client.fullName formData;
      Client.dateOfBirth := dob;
      Client.timeOfBirth := tob;
      Client.birthPlace := Client.birthPlace formData;
      Client.gender := v;
      Client.height := Client.height formData;
      Client.weight := Client.weight formData;
      Client.astrological_sign := Client.astrological_sign formData |}
  | Height => {|
      Client.fullName := Client.fullName formData;
      Client.dateOfBirth := dob;
      Client.timeOfBirth := tob;
      Client.birthPlace := Client.birthPlace formData;
      Client.gender := Client.gender formData;
      Client.height := v;
      Client.weight := Client.weight formData;
      Client.astrological_sign := Client.astrological_sign formData |}
  | Weight => {|
      Client.fullName := Client.fullName formData;
      Client.dateOfBirth := dob;
      Client.timeOfBirth := tob;
      Client.birthPlace := Client.birthPlace formData;
      Client.gender := Client.gender formData;
      Client.height := Client.height formData;
      Client.weight := v;
      Client.astrological_sign := Client.astrological_sign formData |}
  | AstrologicalSign => {|
      Client.fullName := Client.fullName formData;
      Client.dateOfBirth := dob;
      Client.timeOfBirth := tob;
      Client.birthPlace := Client.birthPlace formData;
      Client.gender := Client.gender formData;
      Client.height := Client.height formData;
      Client.weight := Client.weight formData;
      Client.astrological_sign := v |}
  end.

(** The [errors] state: messages by key. *)
Abbreviation Errors := (gmap string string).

(** [errors[key]] as a condition: a message is there and is not [''] *)
Definition hasError (errors : Errors) (key : string) : bool :=
  match errors !! key with
  | Some message => negb (String.eqb message "")
  | None => false
  end.

(** [handleInputChange(field, value)]: the new [formData] and [errors]. *)
Definition handleInputChange (f : Field) (v : string)
    (formData : Client.FormData) (errors : Errors)
  : Client.FormData * Errors :=
  (setField f v formData,
   if hasError errors (fieldName f) then <[fieldName f := ""]> errors
   else errors).

(** The field a form input displays. *)
Definition getField (f : Field) (formData : Client.FormData) : value :=
  match f with
  | FullName => str (Client.fullName formData)
  | DobYear => Server.year (Client.dateOfBirth formData)
  | DobMonth => Server.month (Client.dateOfBirth formData)
  | DobDay => Server.day (Client.dateOfBirth formData)
  | TobHour => Server.hour (Client.timeOfBirth formData)
  | TobMinute => Server.minute (Client.timeOfBirth formData)
  | BirthPlace => str (Client.birthPlace formData)
  | Gender => str (Client.gender formData)
  | Height => str (Client.height formData)
  | Weight => str (Client.weight formData)
  | AstrologicalSign => str (Client.astrological_sign formData)
  end.

(** [validateForm()]: the [newErrors] object it stores in [errors], and
    whether it has no key. *)
Definition validateForm (formData : Client.FormData) (ageValidation : string)
  : Errors * bool :=
  let newErrors : Errors := ∅ in
  let newErrors :=
    if negb (negb (String.eqb (trim (Client.fullName formData)) ""))
    then <["fullName" := "Full name is required"]> newErrors
    else newErrors in
  let dob := Client.dateOfBirth formData in
  let newErrors :=
    if negb (truthy (Server.year dob)) || negb (truthy (Server.month dob))
       || negb (truthy (Server.day dob))
    then <["dateOfBirth" := "Complete date of birth is required"]> newErrors
    else newErrors in
  let newErrors :=
    if negb (negb (String.eqb (Client.gender formData) ""))
    then <["gender" := "Gender selection is required"]> newErrors
    else newErrors in
  let newErrors :=
    if negb (String.eqb ageValidation "")
    then <["ageValidation" := ageValidation]> newErrors
    else newErrors in
  (newErrors, bool_decide (size newErrors = 0%nat)).

(** [JSON.stringify(formData)] as the server parses it. *)
Definition requestBody (formData : Client.FormData) : Server.Body := {|
  Server.fullName := str (Client.fullName formData);
  Server.dateOfBirth := Some (Client.dateOfBirth formData);
  Server.timeOfBirth := Some (Client.timeOfBirth formData);
  Server.birthPlace := str (Client.birthPlace formData);
  Server.gender := str (Client.gender formData);
  Server.height := str (Client.height formData);
  Server.weight := str (Client.weight formData);
  Server.astrological_sign := str (Client.astrological_sign formData)
|}.

(** The form as [useState] creates it and as a successful submit
    resets it. *)
Definition emptyForm : Client.FormData := {|
  Client.fullName := "";
  Client.dateOfBirth :=
    {| Server.year := str ""; Server.month := str ""; Server.day := str "" |};
  Client.timeOfBirth := {| Server.hour := str ""; Server.minute := str "" |};
  Client.birthPlace := "";
  Client.gender := "";
  Client.height := "";
  Client.weight := "";
  Client.astrological_sign := ""
|}.

(** [response.ok] *)
Definition ok (r : Server.Response) : bool :=
  (200 <=? Server.status r) && (Server.status r <=? 299).

(** What [handleSubmit] leaves behind. *)
Record Submitted : Type := {
  formData : Client.FormData;
  errors : Errors;
  response : option Server.Response;
  collection : Server.Collection
}.

(** [handleSubmit()] against the server: nothing is sent when
    [validateForm] fails; otherwise the form is posted to
    [/api/register] and reset when the answer is [ok]. The alerts are
    left out, and the request is taken to reach the server. *)
Definition handleSubmit (bootYear : Z) (clock : Server.Clock)
    (form : Client.FormData) (ageValidation : string)
    (db : Server.Collection) : Submitted :=
  let (newErrors, valid) := validateForm form ageValidation in
  if negb valid then
    {| formData := form; errors := newErrors; response := None;
       collection := db |}
  else
    let (res, db') := Server.register bootYear clock (requestBody form) db in
    {| formData := if ok res then emptyForm else form;
       errors := newErrors;
       response := Some res;
       collection := db' |}.

(** The option lists of the month, day, hour and minute selects, as
    the values the selects put in [formData]. *)
Definition two (n : nat) : string :=
  let s := pretty n in
  if (String.length s <? 2)%nat then String.append "0" s else s.

Definition months : list string :=
  ["01"; "02"; "03"; "04"; "05"; "06"; "07"; "08"; "09"; "10"; "11"; "12"].

Definition days : list string := map (fun i => pretty (i + 1)%nat) (seq 0 31).

Definition hours : list string := map two (seq 0 24).

Definition minutes : list string := map two (seq 0 60).

End Form.

(** ** Vocabulary for the collection *)

Module Registry.
Import Js Server.

(** Two documents carry the same full name and date of birth. *)
Definition sameKey (u v : User) : Prop :=
  Schema.fullName u = Schema.fullName v
  /\ year (Schema.dateOfBirth u) = year (Schema.dateOfBirth v)
  /\ month (Schema.dateOfBirth u) = month (Schema.dateOfBirth v)
  /\ day (Schema.dateOfBirth u) = day (Schema.dateOfBirth v).

(** No two documents carry the same full name and date of birth. *)
Definition unique (db : Collection) : Prop :=
  forall i j u v,
    db !! i = Some u -> db !! j = Some v -> sameKey u v -> i = j.

(** Some stored document matches the duplicate filter. *)
Definition taken (name : string) (dob : DateOfBirth) (db : Collection) : Prop :=
  exists i u, db !! i = Some u /\ sameRegistrant name dob u.

End Registry.

(** ** Further sample requests *)

Module Cases.
Import Js Server.

(** Jane Doe, born 1998-03-20, with a time of birth. *)
Definition jane : Body := {|
  fullName := str "Jane Doe";
  dateOfBirth := Some {| year := str "1998"; month := str "03"; day := str "20" |};
  timeOfBirth := Some {| hour := str "10"; minute := str "30" |};
  birthPlace := undefined;
  gender := str "Female";
  height := undefined;
  weight := undefined;
  astrological_sign := undefined
|}.

(** The collection after John, then Jane, registered in June 2024. *)
Definition twoUsers : Collection :=
  snd (handle 2024 Sample.june2024 (PostRegister jane) Sample.registered).

(** John's form with a name of two spaces. *)
Definition blank : Body := {|
  fullName := str "  ";
  dateOfBirth := Some {| year := str "1984"; month := str "06"; day := str "15" |};
  timeOfBirth := None;
  birthPlace := undefined;
  gender := str "Male";
  height := undefined;
  weight := undefined;
  astrological_sign := undefined
|}.

(** An age query whose month is not a number. *)
Definition badMonth : AgeQuery := {|
  q_year := str "1990";
  q_month := str "abc";
  q_day := str "15";
  q_gender := str "Male"
|}.

(** John's form as the client holds it, the time of birth selected. *)
Definition johnForm : Client.FormData := {|
  Client.fullName := "John Doe";
  Client.dateOfBirth :=
    {| year := str "1984"; month := str "06"; day := str "15" |};
  Client.timeOfBirth := {| hour := str "10"; minute := str "30" |};
  Client.birthPlace := "Pune";
  Client.gender := "Male";
  Client.height := "";
  Client.weight := "";
  Client.astrological_sign := ""
|}.

(** The same form with the hour left on its placeholder. *)
Definition johnFormNoHour : Client.FormData :=
  Form.setField Form.TobHour "" johnForm.

End Cases.

(** ** Calendar arithmetic *)

Section DayNumbers.
Import Date.

Lemma DayFromYear_succ y : DayFromYear (y + 1) = DayFromYear y + DaysInYear y.
Proof.
  unfold DayFromYear, DaysInYear.
  destruct (Z.eqb_spec (y mod 4) 0), (Z.eqb_spec (y mod 100) 0),
    (Z.eqb_spec (y mod 400) 0); cbn [negb]; Z.div_mod_to_equations; lia.
Qed.

Lemma DayFromYear_mono a b : a <= b -> DayFromYear a <= DayFromYear b.
Proof. unfold DayFromYear. Z.div_mod_to_equations. lia. Qed.

Lemma DayFromYear_after_epoch k :
  0 <= k -> 365 * k <= DayFromYear (1970 + k) <= 366 * k.
Proof. unfold DayFromYear. Z.div_mod_to_equations. lia. Qed.

Lemma DayFromYear_before_epoch k :
  k <= 0 -> 366 * k <= DayFromYear (1970 + k) <= 365 * k.
Proof. unfold DayFromYear. Z.div_mod_to_equations. lia. Qed.

(** The search stops at the year that contains [t], given enough fuel
    and a start that is not beyond it. *)
Lemma yearSearch_spec fuel : forall y t Y,
  y <= Y -> Y - y <= Z.of_nat fuel ->
  DayFromYear Y <= t < DayFromYear (Y + 1) ->
  yearSearch fuel y t = Y.
Proof.
  induction fuel as [|f IH]; intros y t Y Hle Hfuel Ht; cbn [yearSearch].
  - lia.
  - destruct (Z.leb_spec (DayFromYear (y + 1)) t) as [Hnext|Hnext].
    + apply IH; [|lia|done].
      destruct (Z.eq_dec y Y) as [->|]; lia.
    + destruct (Z.eq_dec y Y) as [|Hne]; [done|].
      pose proof (DayFromYear_mono (y + 1) Y). lia.
Qed.

(** [YearFromTime] finds the year whose days include [t]: the start and
    the fuel it gives the search always suffice. *)
Lemma YearFromTime_unique t Y :
  DayFromYear Y <= t < DayFromYear (Y + 1) -> YearFromTime t = Y.
Proof.
  intros Ht. unfold YearFromTime. apply yearSearch_spec; [| |done].
  - pose proof (DayFromYear_after_epoch (Y + 1 - 1970)).
    pose proof (DayFromYear_before_epoch (Y + 1 - 1970)).
    replace (1970 + (Y + 1 - 1970)) with (Y + 1) in * by lia.
    destruct (Z.leb_spec 0 t); Z.div_mod_to_equations; lia.
  - pose proof (DayFromYear_after_epoch (Y - 1970)).
    pose proof (DayFromYear_before_epoch (Y - 1970)).
    replace (1970 + (Y - 1970)) with Y in * by lia.
    rewrite Z2Nat.id by (Z.div_mod_to_equations; lia).
    destruct (Z.leb_spec 0 t); Z.div_mod_to_equations; lia.
Qed.

Lemma leapOfYear_cases y :
  leapOfYear y = 0 /\ DaysInYear y = 365
  \/ leapOfYear y = 1 /\ DaysInYear y = 366.
Proof.
  unfold leapOfYear, DaysInYear. repeat case_match; cbn; auto; discriminate.
Qed.

Lemma MakeDay_in_year y m d :
  0 <= m <= 11 ->
  MakeDay y m d = DayFromYear y + monthStart m (leapOfYear y) + d - 1.
Proof.
  intros Hm. unfold MakeDay.
  rewrite Z.div_small, Z.mod_small by lia. by rewrite Z.add_0_r.
Qed.

Lemma month_cases m :
  1 <= m <= 12 ->
  m = 1 \/ m = 2 \/ m = 3 \/ m = 4 \/ m = 5 \/ m = 6 \/ m = 7
  \/ m = 8 \/ m = 9 \/ m = 10 \/ m = 11 \/ m = 12.
Proof. lia. Qed.

Ltac each_month H :=
  apply month_cases in H;
  repeat (destruct H as [->|H]); [..|subst].

Ltac month_start :=
  repeat match goal with
  | |- context [monthStart ?a ?b] =>
      let v := eval vm_compute in (monthStart a b) in
      change (monthStart a b) with v
  end.

(** A calendar date read back from its day number is itself. *)
Lemma calendar_fields y m d :
  1 <= m <= 12 -> 1 <= d <= daysInMonth y m ->
  let t := MakeDay y (m - 1) d in
  YearFromTime t = y /\ MonthFromTime t = m - 1 /\ DateFromTime t = d.
Proof.
  intros Hm Hd t.
  assert (Ht : t = DayFromYear y + monthStart (m - 1) (leapOfYear y) + d - 1)
    by (apply MakeDay_in_year; lia).
  clearbody t. subst t.
  assert (Hy : YearFromTime
                 (DayFromYear y + monthStart (m - 1) (leapOfYear y) + d - 1) = y).
  { apply YearFromTime_unique. rewrite DayFromYear_succ.
    destruct (leapOfYear_cases y) as [[Hl Hn]|[Hl Hn]];
      rewrite Hn; unfold daysInMonth in Hd; rewrite Hl in *;
      each_month Hm; month_start; cbn in Hd; lia. }
  split; [done|].
  unfold DateFromTime, MonthFromTime, DayWithinYear, InLeapYear.
  rewrite Hy. unfold daysInMonth in Hd.
  destruct (leapOfYear_cases y) as [[Hl _]|[Hl _]]; rewrite Hl in *;
    each_month Hm; month_start; cbn in Hd |- *;
    repeat match goal with
    | |- context [?a <? ?b] => destruct (Z.ltb_spec a b); try lia
    end; cbn; split; lia.
Qed.

(** Such a date, in a year within the range of [Date], is a valid
    [Date]. *)
Lemma calendar_in_range y m d :
  Spec.calendarDate y m d -> Z.abs (MakeDay y (m - 1) d) <= 100000000.
Proof.
  intros (Hy & Hm & Hd).
  rewrite MakeDay_in_year by lia.
  assert (0 <= monthStart (m - 1) (leapOfYear y) + d - 1 < 366).
  { unfold daysInMonth in Hd.
    destruct (leapOfYear_cases y) as [[Hl _]|[Hl _]]; rewrite Hl in *;
      each_month Hm; month_start; cbn in Hd; lia. }
  unfold DayFromYear. Z.div_mod_to_equations. lia.
Qed.

End DayNumbers.

(** ** Age computation *)

Section Age.
Import Js Server.

(** The shape of [calculateAge] once the birth date is a valid [Date]:
    the difference of the years, less one when today's (month, day)
    comes before the birth date's. *)
Lemma calculateAge_birthDate now year month day b :
  Date.make (ToNumber year) (sub (parseInt month) (Num 1)) (ToNumber day) = Num b ->
  calculateAge now year month day =
    Num (Date.YearFromTime now - Date.YearFromTime b
         - (if Spec.precedes (Date.MonthFromTime now) (Date.DateFromTime now)
                 (Date.MonthFromTime b) (Date.DateFromTime b)
            then 1 else 0)).
Proof.
  intros Hb. unfold calculateAge. rewrite Hb.
  cbn [Date.getFullYear Date.getMonth Date.getDate sub lt strict_eq].
  unfold Spec.precedes.
  destruct (Z.ltb_spec (Date.MonthFromTime now - Date.MonthFromTime b) 0),
    (Z.ltb_spec (Date.MonthFromTime now) (Date.MonthFromTime b)),
    (Z.eqb_spec (Date.MonthFromTime now - Date.MonthFromTime b) 0),
    (Z.eqb_spec (Date.MonthFromTime now) (Date.MonthFromTime b)),
    (Z.ltb_spec (Date.DateFromTime now) (Date.DateFromTime b));
    cbn [orb andb sub]; f_equal; lia.
Qed.

(** [new Date(year, month - 1, day)] on a calendar date is that date. *)
Lemma make_calendarDate year month day y m d :
  ToNumber year = Num y -> parseInt month = Num m -> ToNumber day = Num d ->
  Spec.calendarDate y m d ->
  Date.make (ToNumber year) (sub (parseInt month) (Num 1)) (ToNumber day)
  = Num (Date.MakeDay y (m - 1) d).
Proof.
  intros -> -> -> Hc. cbn [sub Date.make].
  pose proof (calendar_in_range _ _ _ Hc) as Hr.
  destruct Hc as (Hy & _ & _).
  replace ((0 <=? y) && (y <=? 99)) with false
    by (symmetry; apply andb_false_iff; right; apply Z.leb_gt; lia).
  unfold Date.TimeClip.
  by destruct (Z.leb_spec (Z.abs (Date.MakeDay y (m - 1) d)) 100000000); [|lia].
Qed.

End Age.

Section AgeClaims.
Import Js Server.

(** C4. Anniversary-based age. [calculateAge] at a reference day is the
    difference between the reference year and the birth year, less one
    exactly when the reference (month, day) precedes the birth
    (month, day): for every calendar birth date in terms of the year,
    month and day passed in, and for every input in terms of the fields
    of the [Date] built from it (which is where a day beyond the end of
    its month rolls over). In particular a birth date of 2000-06-15
    gives 23 on 2024-06-14 and 24 on 2024-06-15. *)
Theorem calculateAge_anniversary :
  (forall now year month day y m d,
      ToNumber year = Num y -> parseInt month = Num m -> ToNumber day = Num d ->
      Spec.calendarDate y m d ->
      calculateAge now year month day =
        Num (Date.YearFromTime now - y
             - (if Spec.precedes (Date.MonthFromTime now + 1) (Date.DateFromTime now) m d
                then 1 else 0)))
  /\ (forall now year month day b,
      Date.make (ToNumber year) (sub (parseInt month) (Num 1)) (ToNumber day) = Num b ->
      calculateAge now year month day =
        Num (Date.YearFromTime now - Date.YearFromTime b
             - (if Spec.precedes (Date.MonthFromTime now) (Date.DateFromTime now)
                     (Date.MonthFromTime b) (Date.DateFromTime b)
                then 1 else 0)))
  /\ (forall now,
      Date.YearFromTime now = 2024 -> Date.MonthFromTime now + 1 = 6 ->
      (Date.DateFromTime now = 14 ->
       calculateAge now (str "2000") (str "06") (str "15") = Num 23)
      /\ (Date.DateFromTime now = 15 ->
       calculateAge now (str "2000") (str "06") (str "15") = Num 24)).
Proof.
  assert (Hcal : forall now year month day y m d,
      ToNumber year = Num y -> parseInt month = Num m -> ToNumber day = Num d ->
      Spec.calendarDate y m d ->
      calculateAge now year month day =
        Num (Date.YearFromTime now - y
             - (if Spec.precedes (Date.MonthFromTime now + 1) (Date.DateFromTime now) m d
                then 1 else 0))).
  { intros now year month day y m d Hy Hm Hd Hc.
    rewrite (calculateAge_birthDate now year month day (Date.MakeDay y (m - 1) d))
      by (by apply make_calendarDate).
    destruct Hc as (_ & Hm' & Hd').
    destruct (calendar_fields y m d Hm' Hd') as (-> & -> & ->).
    f_equal. f_equal. unfold Spec.precedes.
    destruct (Z.ltb_spec (Date.MonthFromTime now) (m - 1)),
      (Z.ltb_spec (Date.MonthFromTime now + 1) m),
      (Z.eqb_spec (Date.MonthFromTime now) (m - 1)),
      (Z.eqb_spec (Date.MonthFromTime now + 1) m); try lia; reflexivity. }
  split; [exact Hcal|]. split; [exact calculateAge_birthDate|].
  intros now Hy Hm.
  assert (Hc : Spec.calendarDate 2000 6 15) by (by vm_compute).
  split; intros Hd;
    rewrite (Hcal now (str "2000") (str "06") (str "15") 2000 6 15
               eq_refl eq_refl eq_refl Hc), Hy, Hm, Hd; reflexivity.
Qed.

Lemma calculateAge_anniversary_witness :
  Spec.calendarDate 2000 6 15
  /\ calculateAge (Date.MakeDay 2024 5 14) (str "2000") (str "06") (str "15")
     = Num 23.
Proof.
  assert (Hc : Spec.calendarDate 2000 6 15) by (by vm_compute).
  split; [exact Hc|].
  exact (proj1 calculateAge_anniversary (Date.MakeDay 2024 5 14)
           (str "2000") (str "06") (str "15") 2000 6 15
           eq_refl eq_refl eq_refl Hc).
Defined.

(** A day the calendar lacks rolls into the next month before the
    comparison: 29 February 2001 counts as 1 March 2001. *)
Example calculateAge_rollover :
  calculateAge (Date.MakeDay 2024 1 29) (str "2001") (str "02") (str "29") = Num 22
  /\ calculateAge (Date.MakeDay 2024 2 1) (str "2001") (str "02") (str "29") = Num 23.
Proof. split; reflexivity. Qed.

End AgeClaims.

(** ** The eligibility rule *)

Section Eligibility.
Import Js Server.

(** The three tests of [validateAge] on an integer age. *)
Lemma validateAge_Num a g :
  validateAge (Num a) g =
    (if bool_decide (g = str "Male") && (a <? 21) then [msgMen] else [])
    ++ (if bool_decide (g = str "Female") && (a <? 18) then [msgWomen] else [])
    ++ (if 40 <? a then [msgMaximum] else []).
Proof.
  unfold validateAge, gt, lt. by repeat case_match.
Qed.

Ltac rule_cases a :=
  rewrite validateAge_Num;
  repeat case_bool_decide; simplify_eq;
  destruct (Z.ltb_spec a 21), (Z.ltb_spec a 18), (Z.ltb_spec 40 a);
  cbn [andb app length]; try lia.

(** C3 as stated fails: the message pushed for an age above 40 is
    longer than the sentence the claim quotes. *)
Lemma validateAge_maximum_not_verbatim :
  41 > 40
  /\ ~ In "Maximum age for both genders is 40 years"
         (validateAge (Num 41) (str "Male")).
Proof.
  split; [lia|]. vm_compute. intros [H|[]]. discriminate H.
Qed.

(** C3, amended. For every age above 40 and any gender, [validateAge]
    returns a list containing the message "Maximum age for both genders
    is 40 years. Please visit our other site for registration.",
    whatever the other rules do; the message begins with the sentence
    of the specification. *)
Theorem validateAge_maximum (a : Z) (g : value) :
  a > 40 ->
  In "Maximum age for both genders is 40 years. Please visit our other site for registration."
     (validateAge (Num a) g)
  /\ String.prefix "Maximum age for both genders is 40 years" msgMaximum = true.
Proof.
  intros Ha. split; [|reflexivity].
  rule_cases a; auto with datatypes; cbn; auto.
Qed.

Lemma validateAge_maximum_witness :
  In "Maximum age for both genders is 40 years. Please visit our other site for registration."
     (validateAge (Num 45) (str "Female"))
  /\ String.prefix "Maximum age for both genders is 40 years" msgMaximum = true.
Proof. apply (validateAge_maximum 45 (str "Female")). lia. Defined.

(** C5. Minimum-age rules: under 21 a man gets "Men must be at least 21
    years old", under 18 a woman gets "Women must be at least 18 years
    old". *)
Theorem validateAge_minimum (a : Z) :
  (a < 21 ->
   In "Men must be at least 21 years old" (validateAge (Num a) (str "Male")))
  /\ (a < 18 ->
   In "Women must be at least 18 years old" (validateAge (Num a) (str "Female"))).
Proof.
  split; intros Ha; rule_cases a; cbn; auto.
Qed.

Lemma validateAge_minimum_witness :
  In "Men must be at least 21 years old" (validateAge (Num 20) (str "Male"))
  /\ In "Women must be at least 18 years old" (validateAge (Num 17) (str "Female")).
Proof.
  split.
  - apply (proj1 (validateAge_minimum 20)). lia.
  - apply (proj2 (validateAge_minimum 17)). lia.
Defined.

(** C6. The eligible range passes: a man of 21 to 40 and a woman of 18
    to 40 get the empty list. *)
Theorem validateAge_eligible_range (a : Z) :
  (21 <= a <= 40 -> validateAge (Num a) (str "Male") = [])
  /\ (18 <= a <= 40 -> validateAge (Num a) (str "Female") = []).
Proof.
  split; intros Ha; rule_cases a; reflexivity.
Qed.

Lemma validateAge_eligible_range_witness :
  validateAge (Num 21) (str "Male") = []
  /\ validateAge (Num 40) (str "Female") = [].
Proof.
  split.
  - apply (proj1 (validateAge_eligible_range 21)). lia.
  - apply (proj2 (validateAge_eligible_range 40)). lia.
Defined.

(** C9. At most one violation: for every integer age and every gender
    value the list has at most one message, the three conditions being
    pairwise exclusive. *)
Theorem validateAge_at_most_one (a : Z) (g : value) :
  (length (validateAge (Num a) g) <= 1)%nat
  /\ ~ (g = str "Male" /\ a < 21 /\ g = str "Female" /\ a < 18)
  /\ ~ (g = str "Male" /\ a < 21 /\ a > 40)
  /\ ~ (g = str "Female" /\ a < 18 /\ a > 40).
Proof.
  split; [|repeat split; intros ?; destruct_and?; simplify_eq; lia].
  rule_cases a; cbn; lia.
Qed.

End Eligibility.

Section UnrecognizedGender.
Import Js Server.

(** C10. A gender other than Male and Female is only subject to the
    maximum-age rule, so any age up to 40 passes; and
    [POST /api/validate-age] takes any non-empty gender string, with no
    enum check, and reports such a request as valid. *)
Theorem unrecognized_gender_passes :
  (forall (g : value) (a : Z),
      g <> str "Male" -> g <> str "Female" ->
      validateAge (Num a) g = (if 40 <? a then [msgMaximum] else [])
      /\ (a <= 40 -> validateAge (Num a) g = []))
  /\ (forall (clock : Clock) (q : AgeQuery) (a : Z),
      truthy (q_year q) = true -> truthy (q_month q) = true ->
      truthy (q_day q) = true -> truthy (q_gender q) = true ->
      q_gender q <> str "Male" -> q_gender q <> str "Female" ->
      calculateAge (today clock) (q_year q) (q_month q) (q_day q) = Num a ->
      a <= 40 ->
      validate_age clock q = {| status := 200; json := AgeReport (Num a) true [] |}).
Proof.
  assert (Hrule : forall (g : value) (a : Z),
      g <> str "Male" -> g <> str "Female" ->
      validateAge (Num a) g = (if 40 <? a then [msgMaximum] else [])).
  { intros g a HM HF. rewrite validateAge_Num.
    by rewrite !bool_decide_eq_false_2 by done. }
  split.
  - intros g a HM HF. split; [by apply Hrule|].
    intros Ha. rewrite Hrule by done.
    by destruct (Z.ltb_spec 40 a); [lia|].
  - intros clock q a Hy Hm Hd Hg HM HF Hage Ha.
    unfold validate_age. rewrite Hy, Hm, Hd, Hg, Hage. cbn [negb orb].
    rewrite Hrule by done.
    by destruct (Z.ltb_spec 40 a); [lia|].
Qed.

Lemma unrecognized_gender_passes_witness :
  validate_age {| today := Date.MakeDay 2024 5 15; timestamp := 0 |}
    {| q_year := str "1990"; q_month := str "06"; q_day := str "15";
       q_gender := str "Other" |}
  = {| status := 200; json := AgeReport (Num 34) true [] |}.
Proof.
  apply (proj2 unrecognized_gender_passes); try reflexivity; discriminate.
Defined.

End UnrecognizedGender.

(** ** Client and server *)

Section ClientServer.
Import Js Server.

(** The age the effect computes in line is [calculateAge]'s. *)
Lemma ageEffect_calculateAge now form prev :
  Spec.dateComplete (Client.dateOfBirth form) ->
  Client.ageEffect now form prev =
    let age :=
      calculateAge now (year (Client.dateOfBirth form))
        (month (Client.dateOfBirth form)) (day (Client.dateOfBirth form)) in
    if String.eqb (Client.gender form) "Male" && lt age (Num 21)
    then Client.msgMen
    else if String.eqb (Client.gender form) "Female" && lt age (Num 18)
    then Client.msgWomen
    else if gt age (Num 40) then Client.msgMaximum
    else "".
Proof.
  intros (Hy & Hm & Hd). unfold Client.ageEffect. by rewrite Hy, Hm, Hd.
Qed.

(** C2 as stated fails: above 40 the client and the server word the
    violation differently. *)
Lemma client_server_messages_differ :
  let form := {|
    Client.fullName := "John Doe";
    Client.dateOfBirth :=
      {| year := str "1980"; month := str "01"; day := str "01" |};
    Client.timeOfBirth := {| hour := str ""; minute := str "" |};
    Client.birthPlace := "";
    Client.gender := "Male";
    Client.height := "";
    Client.weight := "";
    Client.astrological_sign := "" |} in
  let now := Date.MakeDay 2024 5 15 in
  Spec.clientViolations (Client.ageEffect now form "")
  <> validateAge (calculateAge now (str "1980") (str "01") (str "01")) (str "Male").
Proof. vm_compute. discriminate. Qed.

(** C2, amended. For every complete date of birth and gender Male or
    Female, on the same reference day, the client check and the server's
    [calculateAge] + [validateAge] give the same verdict, and the same
    message for the two minimum-age rules; for the maximum-age rule the
    client shows "Maximum age for both genders is 40 years. If above 40,
    please visit our other site." where the server returns "Maximum age
    for both genders is 40 years. Please visit our other site for
    registration.". *)
Theorem client_server_agreement now form prev :
  Spec.dateComplete (Client.dateOfBirth form) ->
  Client.gender form = "Male" \/ Client.gender form = "Female" ->
  let c := Client.ageEffect now form prev in
  let s :=
    validateAge
      (calculateAge now (year (Client.dateOfBirth form))
         (month (Client.dateOfBirth form)) (day (Client.dateOfBirth form)))
      (str (Client.gender form)) in
  Client.submitDisabled c = (0 <? length s)%nat
  /\ (s = [] /\ c = ""
      \/ s = ["Men must be at least 21 years old"]
         /\ c = "Men must be at least 21 years old"
      \/ s = ["Women must be at least 18 years old"]
         /\ c = "Women must be at least 18 years old"
      \/ s = ["Maximum age for both genders is 40 years. Please visit our other site for registration."]
         /\ c = "Maximum age for both genders is 40 years. If above 40, please visit our other site.").
Proof.
  intros Hdate Hg c s. subst c s.
  rewrite ageEffect_calculateAge by done. cbv zeta.
  destruct (calculateAge _ _ _ _) as [|a].
  - destruct Hg as [-> | ->]; split; [reflexivity|by left|reflexivity|by left].
  - rewrite validateAge_Num. cbn [lt gt].
    destruct Hg as [-> | ->];
      destruct (Z.ltb_spec a 21), (Z.ltb_spec a 18), (Z.ltb_spec 40 a);
      try lia; (split; [reflexivity|]); cbn; auto 6.
Qed.

Lemma client_server_agreement_witness :
  let form := {|
    Client.fullName := "Jane Doe";
    Client.dateOfBirth :=
      {| year := str "2010"; month := str "03"; day := str "20" |};
    Client.timeOfBirth := {| hour := str ""; minute := str "" |};
    Client.birthPlace := "";
    Client.gender := "Female";
    Client.height := "";
    Client.weight := "";
    Client.astrological_sign := "" |} in
  Client.ageEffect (Date.MakeDay 2024 5 15) form ""
  = "Women must be at least 18 years old".
Proof.
  intros form.
  assert (Hd : Spec.dateComplete (Client.dateOfBirth form)) by (by vm_compute).
  destruct (client_server_agreement (Date.MakeDay 2024 5 15) form "" Hd
              (or_intror eq_refl)) as [_ H].
  vm_compute in H.
  destruct H as [[H _]|[[H _]|[[_ H]|[H _]]]];
    [discriminate H|discriminate H|exact H|discriminate H].
Defined.

End ClientServer.

(** ** Validated requests

    A request that passes [registrationValidation] carries numerals of
    the modelled fragment, so the handlers behind the chain always
    compute with integers. *)

Section Validated.
Import Js Server.

Lemma digit_not_space c d : digit c = Some d -> isSpace c = false.
Proof.
  destruct c as [[] [] [] [] [] [] [] []]; vm_compute; congruence.
Qed.

Lemma digits_trimEnd s : forall acc z, digits acc s = Some z -> trimEnd s = s.
Proof.
  induction s as [|c r IH]; intros acc z H; [done|].
  cbn in H. destruct (digit c) as [d|] eqn:Hc; [|done].
  cbn [trimEnd]. rewrite (IH _ _ H).
  destruct r; [by rewrite (digit_not_space _ _ Hc)|done].
Qed.

Lemma unsignedDecimal_trim s z :
  unsignedDecimal s = Num z -> s <> "" /\ trimStart s = s /\ trimEnd s = s.
Proof.
  unfold unsignedDecimal. destruct s as [|c r]; [done|].
  destruct (digits 0 (String c r)) as [z'|] eqn:Hd; [|done]. intros _.
  split; [done|]. split; [|by eapply digits_trimEnd].
  cbn in Hd. destruct (digit c) as [d|] eqn:Hc; [|done].
  cbn [trimStart]. by rewrite (digit_not_space _ _ Hc).
Qed.

Lemma signedDecimal_trim s z : signedDecimal s = Num z -> s <> "" /\ trim s = s.
Proof.
  unfold signedDecimal, trim.
  destruct s as [|c r]; [done|].
  destruct (Ascii.eqb_spec c "+") as [->|Hplus].
  - intros H. apply unsignedDecimal_trim in H as (Hne & _ & He).
    split; [done|]. change (trimStart (String "+" r)) with (String "+" r).
    cbn [trimEnd]. rewrite He. by destruct r.
  - destruct (Ascii.eqb_spec c "-") as [->|Hminus].
    + intros H. destruct (unsignedDecimal r) as [|z'] eqn:Hr; [done|].
      apply unsignedDecimal_trim in Hr as (Hne & _ & He).
      split; [done|]. change (trimStart (String "-" r)) with (String "-" r).
      cbn [trimEnd]. rewrite He. by destruct r.
    + intros H.
      assert (Hu : unsignedDecimal (String c r) = Num z).
      { revert H. destruct c as [[] [] [] [] [] [] [] []]; done. }
      apply unsignedDecimal_trim in Hu as (_ & Hs & He).
      split; [done|]. by rewrite Hs, He.
Qed.

Lemma isInt_ToNumber min max v :
  isInt min max v = true -> exists z, ToNumber v = Num z /\ min <= z <= max.
Proof.
  unfold isInt. destruct (signedDecimal (toString v)) as [|z] eqn:Hs; [done|].
  intros Hr. exists z. split; [|lia].
  destruct v as [|s]; [done|]. cbn in Hs.
  destruct (signedDecimal_trim _ _ Hs) as [Hne Ht].
  unfold ToNumber. rewrite Ht.
  by destruct (String.eqb_spec s "").
Qed.

Lemma isIn_months v :
  isIn months v = true -> exists m, parseInt v = Num m /\ 1 <= m <= 12.
Proof.
  unfold isIn, months. destruct v as [|s]; [done|]. cbn [toString existsb].
  repeat match goal with
  | |- context [String.eqb s ?x] =>
      destruct (String.eqb_spec s x) as [->|];
      [intros _; vm_compute (parseInt _); eexists; split; [reflexivity|lia]|]
  end.
  by cbn [orb].
Qed.

Lemma runChain_cons check msg (c : Chain) v :
  runChain ((check, msg) :: c) v = [] -> check v = true /\ runChain c v = [].
Proof.
  unfold runChain. cbn [flat_map fst snd].
  by destruct (check v).
Qed.

Lemma notEmpty_str v : notEmpty v = true -> exists s, v = str s.
Proof. destruct v as [|s]; [done|by exists s]. Qed.

Lemma validated_request bootYear b :
  registrationValidation bootYear b = [] ->
  exists name dob y m d,
    fullName b = str name /\ dateOfBirth b = Some dob
    /\ ToNumber (year dob) = Num y /\ 1940 <= y <= bootYear
    /\ parseInt (month dob) = Num m /\ 1 <= m <= 12
    /\ ToNumber (day dob) = Num d /\ 1 <= d <= 31
    /\ (gender b = str "Male" \/ gender b = str "Female").
Proof.
  unfold registrationValidation. intros H.
  apply app_eq_nil in H as [Hname H].
  apply app_eq_nil in H as [Hyear H].
  apply app_eq_nil in H as [Hmonth H].
  apply app_eq_nil in H as [Hday H].
  apply app_eq_nil in H as [Hgender _].
  apply runChain_cons in Hname as [Hname _].
  apply runChain_cons in Hyear as [Hy0 Hyear].
  apply runChain_cons in Hyear as [Hyear _].
  apply runChain_cons in Hmonth as [_ Hmonth].
  apply runChain_cons in Hmonth as [Hmonth _].
  apply runChain_cons in Hday as [_ Hday].
  apply runChain_cons in Hday as [Hday _].
  apply runChain_cons in Hgender as [_ Hgender].
  apply runChain_cons in Hgender as [Hgender _].
  apply notEmpty_str in Hname as [name Hname].
  destruct (dateOfBirth b) as [dob|]; [|done]. cbn [path] in *.
  apply isInt_ToNumber in Hyear as (y & Hy & Hyr).
  apply isIn_months in Hmonth as (m & Hm & Hmr).
  apply isInt_ToNumber in Hday as (d & Hd & Hdr).
  exists name, dob, y, m, d. repeat (split; [done|]).
  revert Hgender. unfold isIn. destruct (gender b) as [|g]; [done|].
  cbn [toString existsb].
  destruct (String.eqb_spec g "Male") as [->|]; [by left|].
  destruct (String.eqb_spec g "Female") as [->|]; [by right|done].
Qed.

Lemma register_status bootYear clock b db :
  let s := status (fst (register bootYear clock b db)) in
  s = 201 \/ s = 400 \/ s = 409.
Proof.
  unfold register. case_bool_decide as Hv; cbn [negb]; [|auto].
  destruct (validated_request _ _ Hv) as (name & dob & _ & _ & _ & Hn & Hd & _).
  rewrite Hn, Hd. repeat case_match; cbn; auto.
Qed.

Lemma update_status bootYear clock id b db :
  let s := status (fst (update bootYear clock id b db)) in
  s = 200 \/ s = 400 \/ s = 404.
Proof.
  unfold update. case_bool_decide as Hv; cbn [negb]; [|auto].
  destruct (validated_request _ _ Hv) as (name & dob & _ & _ & _ & Hn & Hd & _).
  rewrite Hn, Hd. repeat case_match; cbn; auto.
Qed.

(** Behind the validation chain the age is an integer. *)
Lemma validated_age bootYear clock b dob :
  registrationValidation bootYear b = [] -> bootYear <= 275000 ->
  dateOfBirth b = Some dob ->
  exists a, calculateAge (today clock) (year dob) (month dob) (day dob) = Num a.
Proof.
  intros Hv Hboot Hdob.
  destruct (validated_request _ _ Hv)
    as (name & dob' & y & m & d & _ & Hdob' & Hy & Hyr & Hm & Hmr & Hd & Hdr & _).
  rewrite Hdob in Hdob'. injection Hdob' as <-.
  eexists. apply calculateAge_birthDate.
  rewrite Hy, Hm, Hd. cbn [sub Date.make].
  replace ((0 <=? y) && (y <=? 99)) with false
    by (symmetry; apply andb_false_iff; right; apply Z.leb_gt; lia).
  unfold Date.TimeClip.
  destruct (Z.leb_spec (Z.abs (Date.MakeDay y (m - 1) d)) 100000000) as [|Hbig];
    [reflexivity|].
  exfalso. revert Hbig. rewrite MakeDay_in_year by lia.
  assert (0 <= Date.monthStart (m - 1) (Date.leapOfYear y) <= 335).
  { destruct (leapOfYear_cases y) as [[-> _]|[-> _]];
      apply month_cases in Hmr;
      repeat (destruct Hmr as [->|Hmr]); try subst m; by vm_compute. }
  unfold Date.DayFromYear. Z.div_mod_to_equations. lia.
Qed.

End Validated.

(** ** The registration store *)

Section Store.
Import Js Server.

Lemma no_violations (errors : list string) :
  (0 <? length errors)%nat = false -> errors = [].
Proof. by destruct errors. Qed.

Lemma some_violations (errors : list string) :
  errors <> [] -> (0 <? length errors)%nat = true.
Proof. by destruct errors. Qed.

(** What the schema lets through: a gender of the enum and an age that
    is a number. *)
Lemma validatePaths_passed name dob g age :
  Schema.validatePaths name dob g age = [] ->
  (g = str "Male" \/ g = str "Female") /\ exists a, age = Num a.
Proof.
  unfold Schema.validatePaths. intros H.
  repeat (apply app_eq_nil in H; destruct H as [? H]).
  split.
  - destruct g as [|s]; [done|].
    match goal with
    | Hg : (if Schema.required _ && Schema.enum _ _ then _ else _) = _ |- _ =>
        revert Hg; cbn
    end.
    destruct (String.eqb_spec s "Male") as [->|]; [by left|].
    destruct (String.eqb_spec s "Female") as [->|]; [by right|].
    by destruct (negb _).
  - destruct age as [|a]; [done|by exists a].
Qed.

(** An age that passes the rule for Male or Female lies in the range. *)
Lemma validateAge_bounds a g :
  g = str "Male" \/ g = str "Female" ->
  validateAge (Num a) g = [] ->
  g = str "Male" /\ 21 <= a <= 40 \/ g = str "Female" /\ 18 <= a <= 40.
Proof.
  intros Hg. rewrite validateAge_Num.
  destruct Hg as [-> | ->];
    destruct (Z.ltb_spec a 21), (Z.ltb_spec a 18), (Z.ltb_spec 40 a);
    cbn; intros; simplify_eq; (by left) || (by right).
Qed.

Lemma stored_ok (u : User) name dob :
  Schema.validatePaths name dob (Schema.gender u) (Schema.age u) = [] ->
  validateAge (Schema.age u) (Schema.gender u) = [] ->
  Spec.eligible u /\ Spec.withinBounds u.
Proof.
  intros Hpaths Hage. split; [done|].
  destruct (validatePaths_passed _ _ _ _ Hpaths) as [Hg [a Ha]].
  exists a. split; [done|]. apply validateAge_bounds; [done|].
  by rewrite <- Ha.
Qed.

(** [register] leaves the collection as it is or adds one document,
    whose age passed [validateAge] for its gender. *)
Lemma register_preserves bootYear clock b db :
  map_Forall (fun _ u => Spec.eligible u /\ Spec.withinBounds u) db ->
  map_Forall (fun _ u => Spec.eligible u /\ Spec.withinBounds u)
    (snd (register bootYear clock b db)).
Proof.
  intros Hdb. unfold register.
  repeat case_match; cbn [snd]; try done.
  apply map_Forall_insert_2; [|done].
  match goal with
  | H : Schema.validate ?u = [] |- _ =>
      unfold Schema.validate in H; apply app_eq_nil in H; destruct H as [H _];
      apply (stored_ok u _ _ H)
  end.
  cbn. by apply no_violations.
Qed.

(** [update] leaves the collection as it is or replaces one document by
    one whose age passed [validateAge] for its gender. *)
Lemma update_preserves bootYear clock id b db :
  map_Forall (fun _ u => Spec.eligible u /\ Spec.withinBounds u) db ->
  map_Forall (fun _ u => Spec.eligible u /\ Spec.withinBounds u)
    (snd (update bootYear clock id b db)).
Proof.
  intros Hdb. unfold update.
  repeat case_match; cbn [snd]; try done.
  apply map_Forall_insert_2; [|done].
  match goal with
  | H : Schema.validatePaths ?n ?d (gender b) ?a = [] |- _ =>
      pose proof (validatePaths_passed _ _ _ _ H) as [Hg _];
      apply (stored_ok _ n d); cbn;
      destruct Hg as [Hg|Hg]; rewrite Hg in *; cbn [setPath];
      (exact H || by apply no_violations)
  end.
Qed.

Lemma delete_preserves id db :
  map_Forall (fun _ u => Spec.eligible u /\ Spec.withinBounds u) db ->
  map_Forall (fun _ u => Spec.eligible u /\ Spec.withinBounds u)
    (snd (delete id db)).
Proof.
  intros Hdb. unfold delete.
  repeat case_match; cbn [snd]; try done.
  by apply map_Forall_delete.
Qed.

(** C1. Store eligibility invariant: in every reachable state of the
    collection, the stored age of every document passes [validateAge]
    for the stored gender (it returns the empty list), and it does so
    as an integer within the bounds of a stored gender of Male or
    Female. Create and update both check before they write, and delete
    only removes. *)
Theorem store_eligibility bootYear db :
  reachable bootYear db ->
  map_Forall (fun _ u => Spec.eligible u /\ Spec.withinBounds u) db.
Proof.
  induction 1 as [|clock r db _ IH].
  - apply map_Forall_empty.
  - destruct r; cbn [handle snd].
    + by apply register_preserves.
    + by apply update_preserves.
    + by apply delete_preserves.
    + done.
Qed.

Lemma store_eligibility_witness :
  map_Forall (fun _ u => Spec.eligible u /\ Spec.withinBounds u) Sample.registered.
Proof.
  apply (store_eligibility 2024).
  apply (reachable_step 2024 Sample.june2024 (PostRegister Sample.john) ∅).
  apply reachable_empty.
Defined.

(** The sample collection holds John's document under identifier 1. *)
Example registered_john : Sample.registered !! 1%positive = Some Sample.johnStored.
Proof. reflexivity. Qed.

(** The duplicate lookup finds a document matching its filter. *)
Lemma findOne_existing name dob (db : Collection) i u :
  db !! i = Some u -> sameRegistrant name dob u -> findOne name dob db = true.
Proof.
  intros Hi Hu. apply bool_decide_eq_true. by exists i, u.
Qed.

(** C7 as stated fails: a request matching a stored registrant is not
    always answered 409. John, stored at 40, posts the same form a year
    later: the age check, which runs before the duplicate lookup,
    answers 400. *)
Lemma register_duplicate_not_409 :
  Sample.registered !! 1%positive = Some Sample.johnStored
  /\ sameRegistrant (trim "John Doe")
       {| year := str "1984"; month := str "06"; day := str "15" |}
       Sample.johnStored
  /\ status (fst (register 2024 Sample.june2025 Sample.john Sample.registered)) <> 409.
Proof.
  split; [reflexivity|]. split; [by vm_compute|].
  vm_compute. discriminate.
Qed.

(** C7, amended. A create request whose trimmed full name and date of
    birth match a stored registrant is always rejected and leaves the
    store unchanged. The rejection is the 409 duplicate error when the
    request passes field validation and the age check, which both run
    before the duplicate lookup, and a 400 when it fails one of them. *)
Theorem register_duplicate_rejected bootYear clock b (db : Collection) name dob i u :
  fullName b = str name ->
  dateOfBirth b = Some dob ->
  db !! i = Some u ->
  sameRegistrant (trim name) dob u ->
  let age := calculateAge (today clock) (year dob) (month dob) (day dob) in
  let r := register bootYear clock b db in
  snd r = db
  /\ (registrationValidation bootYear b = [] ->
      validateAge age (gender b) = [] ->
      fst r = userExists /\ status (fst r) = 409)
  /\ (registrationValidation bootYear b <> []
      \/ validateAge age (gender b) <> [] ->
      status (fst r) = 400).
Proof.
  intros Hname Hdob Hi Hu age r. subst age r.
  unfold register. rewrite Hname, Hdob.
  rewrite (findOne_existing _ _ _ _ _ Hi Hu).
  case_bool_decide as Hv; cbn [negb].
  - destruct (validateAge _ (gender b)) as [|e errors] eqn:Hage; cbn.
    + split; [done|]. split; [done|]. by intros [|].
    + split; [done|]. split; [done|]. done.
  - split; [done|]. split; [done|]. done.
Qed.

Lemma register_duplicate_rejected_witness :
  snd (register 2024 Sample.june2024 Sample.john Sample.registered)
  = Sample.registered.
Proof.
  refine (proj1 (register_duplicate_rejected 2024 Sample.june2024 Sample.john
                   Sample.registered "John Doe"
                   {| year := str "1984"; month := str "06"; day := str "15" |}
                   1%positive Sample.johnStored eq_refl eq_refl eq_refl _)).
  by vm_compute.
Defined.

(** C8. Update atomicity on eligibility failure: an update whose age,
    recomputed from the submitted date of birth, fails the eligibility
    rule for the submitted gender is answered 400 and leaves the
    collection, hence the document under that identifier, as it was. *)
Theorem update_ineligible_rejected bootYear clock id b (db : Collection) dob :
  dateOfBirth b = Some dob ->
  validateAge (calculateAge (today clock) (year dob) (month dob) (day dob))
    (gender b) <> [] ->
  let r := update bootYear clock id b db in
  status (fst r) = 400
  /\ snd r = db
  /\ (forall i, id = Some i -> snd r !! i = db !! i).
Proof.
  intros Hdob Hage r. subst r.
  unfold update. rewrite Hdob.
  case_bool_decide as Hv; cbn [negb]; [|done].
  by rewrite (some_violations _ Hage).
Qed.

Lemma update_ineligible_rejected_witness :
  status (fst (update 2024 Sample.june2024 (Some 1%positive) Sample.johnOlder
                 Sample.registered)) = 400
  /\ snd (update 2024 Sample.june2024 (Some 1%positive) Sample.johnOlder
            Sample.registered) = Sample.registered.
Proof.
  assert (Hage : validateAge
            (calculateAge (today Sample.june2024) (str "1979") (str "06") (str "15"))
            (str "Male") <> []) by (by vm_compute).
  destruct (update_ineligible_rejected 2024 Sample.june2024 (Some 1%positive)
              Sample.johnOlder Sample.registered
              {| year := str "1979"; month := str "06"; day := str "15" |}
              eq_refl Hage) as (Hs & Hdb & _).
  exact (conj Hs Hdb).
Defined.

(** The rejected update of the sample is the age check's: John would be
    45. *)
Example update_ineligible_sample :
  fst (update 2024 Sample.june2024 (Some 1%positive) Sample.johnOlder
         Sample.registered)
  = ageValidationFailed [msgMaximum]
  /\ calculateAge (today Sample.june2024) (str "1979") (str "06") (str "15")
     = Num 45.
Proof. split; reflexivity. Qed.

End Store.

(** ** Calendar fields of a day number *)

Section DayFields.
Import Js Date.

Lemma yearSearch_bounds fuel : forall y t,
  DayFromYear y <= t < DayFromYear (y + Z.of_nat fuel) ->
  let r := yearSearch fuel y t in
  DayFromYear r <= t < DayFromYear (r + 1).
Proof.
  induction fuel as [|f IH]; intros y t Ht; cbn [yearSearch].
  - replace (y + Z.of_nat 0) with y in Ht by lia. lia.
  - destruct (Z.leb_spec (DayFromYear (y + 1)) t) as [Hnext|Hnext].
    + apply IH. replace (y + 1 + Z.of_nat f) with (y + Z.of_nat (S f)) by lia. lia.
    + cbv zeta. lia.
Qed.

Lemma YearFromTime_bounds t :
  DayFromYear (YearFromTime t) <= t < DayFromYear (YearFromTime t + 1).
Proof.
  unfold YearFromTime. apply yearSearch_bounds.
  rewrite Z2Nat.id by (Z.div_mod_to_equations; lia).
  destruct (Z.leb_spec 0 t).
  - pose proof (DayFromYear_after_epoch (t / 366)).
    pose proof (DayFromYear_after_epoch (t / 366 + (Z.abs t / 365 + 1))).
    replace (1970 + t / 366 + (Z.abs t / 365 + 1))
      with (1970 + (t / 366 + (Z.abs t / 365 + 1))) by lia.
    Z.div_mod_to_equations; lia.
  - pose proof (DayFromYear_before_epoch (t / 365)).
    pose proof (DayFromYear_after_epoch (t / 365 + (Z.abs t / 365 + 1))).
    replace (1970 + t / 365 + (Z.abs t / 365 + 1))
      with (1970 + (t / 365 + (Z.abs t / 365 + 1))) by lia.
    Z.div_mod_to_equations; lia.
Qed.

Ltac split_ltb :=
  repeat match goal with
  | |- context [?a <? ?b] => destruct (Z.ltb_spec a b); try lia
  | |- context [?a =? ?b] => destruct (Z.eqb_spec a b); try lia
  end.

Ltac month_succ :=
  repeat match goal with
  | |- context [Z.pos ?p + 1] =>
      let v := eval vm_compute in (Z.pos p + 1) in
      change (Z.pos p + 1) with v
  | |- context [0 + 1] => change (0 + 1) with 1
  end.

Lemma leap_bit y : leapOfYear y = 0 \/ leapOfYear y = 1.
Proof. destruct (leapOfYear_cases y) as [[? _]|[? _]]; auto. Qed.

Lemma DayWithinYear_range t :
  0 <= DayWithinYear t < 365 + InLeapYear t.
Proof.
  unfold DayWithinYear, InLeapYear.
  pose proof (YearFromTime_bounds t) as Hb.
  rewrite DayFromYear_succ in Hb.
  destruct (leapOfYear_cases (YearFromTime t)) as [[-> Hn]|[-> Hn]]; lia.
Qed.

Lemma fields_range t :
  0 <= MonthFromTime t <= 11
  /\ 1 <= DateFromTime t <= daysInMonth (YearFromTime t) (MonthFromTime t + 1).
Proof.
  pose proof (DayWithinYear_range t) as Hr.
  unfold DateFromTime, MonthFromTime, daysInMonth.
  fold (InLeapYear t).
  destruct (leap_bit (YearFromTime t)) as [Hl|Hl]; unfold InLeapYear in *;
    rewrite Hl in *; generalize dependent (DayWithinYear t); intros dw Hr;
    split_ltb; month_succ; cbn; lia.
Qed.

Lemma MakeDay_fields t :
  MakeDay (YearFromTime t) (MonthFromTime t) (DateFromTime t) = t.
Proof.
  pose proof (DayWithinYear_range t) as Hr.
  rewrite MakeDay_in_year by apply fields_range.
  enough (monthStart (MonthFromTime t) (leapOfYear (YearFromTime t))
          + DateFromTime t - 1 = DayWithinYear t)
    by (unfold DayWithinYear in *; lia).
  unfold DateFromTime, MonthFromTime.
  destruct (leap_bit (YearFromTime t)) as [Hl|Hl]; unfold InLeapYear in *;
    rewrite Hl in *; generalize dependent (DayWithinYear t); intros dw Hr;
    split_ltb; cbn; lia.
Qed.

Lemma within_year_order t t' :
  YearFromTime t = YearFromTime t' ->
  Spec.precedes (MonthFromTime t) (DateFromTime t)
    (MonthFromTime t') (DateFromTime t') = (t <? t').
Proof.
  intros Hy.
  pose proof (DayWithinYear_range t) as Hr.
  pose proof (DayWithinYear_range t') as Hr'.
  assert (Ht : (t <? t') = (DayWithinYear t <? DayWithinYear t')).
  { unfold DayWithinYear. rewrite Hy.
    destruct (Z.ltb_spec t t'), (Z.ltb_spec (t - DayFromYear (YearFromTime t'))
      (t' - DayFromYear (YearFromTime t'))); lia || reflexivity. }
  rewrite Ht. clear Ht.
  unfold Spec.precedes, DateFromTime, MonthFromTime, InLeapYear in *.
  rewrite Hy in *.
  destruct (leap_bit (YearFromTime t')) as [Hl|Hl]; rewrite Hl in *;
    generalize dependent (DayWithinYear t); intros dw Hr;
    generalize dependent (DayWithinYear t'); intros dw' Hr';
    clear; split_ltb; cbn; split_ltb; reflexivity.
Qed.

End DayFields.

(** ** Age over time *)

Section AgeOverTime.
Import Js Date Server.

Lemma YearFromTime_mono t t' : t <= t' -> YearFromTime t <= YearFromTime t'.
Proof.
  intros Ht.
  pose proof (YearFromTime_bounds t). pose proof (YearFromTime_bounds t').
  destruct (Z.le_gt_cases (YearFromTime t) (YearFromTime t')) as [|Hgt]; [done|].
  pose proof (DayFromYear_mono (YearFromTime t' + 1) (YearFromTime t)). lia.
Qed.

Ltac split_bool :=
  repeat match goal with
  | |- context [?a <? ?b] => destruct (Z.ltb_spec a b)
  | |- context [?a =? ?b] => destruct (Z.eqb_spec a b)
  | H : context [?a <? ?b] |- _ => destruct (Z.ltb_spec a b)
  | H : context [?a =? ?b] |- _ => destruct (Z.eqb_spec a b)
  end.

(** X1. Age never decreases with the reference day: for a birth date
    that is a valid [Date], a later day gives an age at least as high. *)
Theorem calculateAge_monotone now now' year month day b :
  Date.make (ToNumber year) (sub (parseInt month) (Num 1)) (ToNumber day) = Num b ->
  now <= now' ->
  exists a a',
    calculateAge now year month day = Num a
    /\ calculateAge now' year month day = Num a'
    /\ a <= a'.
Proof.
  intros Hb Hle.
  rewrite !(calculateAge_birthDate _ _ _ _ _ Hb).
  eexists _, _. split; [reflexivity|]. split; [reflexivity|].
  pose proof (YearFromTime_mono _ _ Hle) as Hy.
  destruct (Z.eq_dec (YearFromTime now) (YearFromTime now')) as [Heq|Hne].
  - pose proof (within_year_order now' now (eq_sym Heq)) as Ho.
    replace (now' <? now) with false in Ho by (symmetry; apply Z.ltb_ge; lia).
    rewrite Heq. unfold Spec.precedes in *.
    split_bool; cbn in *; try lia; discriminate.
  - repeat case_match; lia.
Qed.

(** X2. The age is non-negative exactly from the day of birth on, and
    is 0 on that day; a birth date still ahead gives a negative age. *)
Theorem calculateAge_sign now year month day b :
  Date.make (ToNumber year) (sub (parseInt month) (Num 1)) (ToNumber day) = Num b ->
  exists a,
    calculateAge now year month day = Num a
    /\ (b <= now <-> 0 <= a)
    /\ (now = b -> a = 0).
Proof.
  intros Hb. rewrite (calculateAge_birthDate _ _ _ _ _ Hb).
  eexists. split; [reflexivity|].
  destruct (Z.eq_dec (YearFromTime now) (YearFromTime b)) as [Heq|Hne].
  - rewrite (within_year_order now b Heq), Heq.
    destruct (Z.ltb_spec now b); split; try split; lia.
  - assert (now <> b) by congruence.
    destruct (Z.le_gt_cases b now) as [Hle|Hgt].
    + pose proof (YearFromTime_mono _ _ Hle). repeat case_match; split; try split; lia.
    + pose proof (YearFromTime_mono now b ltac:(lia)).
      repeat case_match; split; try split; lia.
Qed.

(** X3. A day beyond the end of its month counts as a day of the next
    month: year, month [m] (1 to 11) and day [d] give the same age as
    month [m + 1] and day [d] less the length of month [m]. *)
Theorem calculateAge_day_overflow now year month day month' day' y m d :
  ToNumber year = Num y -> parseInt month = Num m -> ToNumber day = Num d ->
  parseInt month' = Num (m + 1) ->
  ToNumber day' = Num (d - Date.daysInMonth y m) ->
  100 <= y -> 1 <= m <= 11 ->
  calculateAge now year month day = calculateAge now year month' day'.
Proof.
  intros Hy Hm Hd Hm' Hd' Hyr Hmr.
  unfold calculateAge. rewrite Hy, Hm, Hd, Hm', Hd'. cbn [sub Date.make].
  replace ((0 <=? y) && (y <=? 99)) with false
    by (symmetry; apply andb_false_iff; right; apply Z.leb_gt; lia).
  replace (Date.MakeDay y (m + 1 - 1) (d - Date.daysInMonth y m))
    with (Date.MakeDay y (m - 1) d); [reflexivity|].
  rewrite !MakeDay_in_year by lia. unfold Date.daysInMonth.
  destruct (leap_bit y) as [Hl|Hl]; rewrite Hl;
    assert (Hc : m = 1 \/ m = 2 \/ m = 3 \/ m = 4 \/ m = 5 \/ m = 6 \/ m = 7
               \/ m = 8 \/ m = 9 \/ m = 10 \/ m = 11) by lia;
    repeat (destruct Hc as [->|Hc]); try subst m;
    repeat match goal with
    | |- context [monthStart ?a ?b] =>
        let v := eval vm_compute in (monthStart a b) in
        change (monthStart a b) with v
    end; cbn; lia.
Qed.

(** X4. [POST /api/validate-age] with a month that is not a number
    answers 200 with [isValid] true: the birth date is invalid, the age
    is [NaN], and no test of [validateAge] fires on [NaN]. *)
Theorem validate_age_bad_month clock q :
  truthy (q_year q) = true -> truthy (q_month q) = true ->
  truthy (q_day q) = true -> truthy (q_gender q) = true ->
  parseInt (q_month q) = NaN ->
  validate_age clock q = {| status := 200; json := AgeReport NaN true [] |}.
Proof.
  intros Hy Hm Hd Hg Hp. unfold validate_age.
  rewrite Hy, Hm, Hd, Hg. cbn [negb orb].
  assert (Hage : calculateAge (today clock) (q_year q) (q_month q) (q_day q) = NaN).
  { unfold calculateAge. rewrite Hp.
    by destruct (ToNumber (q_year q)), (ToNumber (q_day q)). }
  rewrite Hage. unfold validateAge, gt, lt.
  by rewrite !andb_false_r.
Qed.

Lemma calculateAge_monotone_witness :
  exists a a',
    calculateAge (Date.MakeDay 2024 5 14) (str "2000") (str "06") (str "15") = Num a
    /\ calculateAge (Date.MakeDay 2024 5 15) (str "2000") (str "06") (str "15") = Num a'
    /\ a <= a'.
Proof.
  apply (calculateAge_monotone (Date.MakeDay 2024 5 14) (Date.MakeDay 2024 5 15)
           (str "2000") (str "06") (str "15") (Date.MakeDay 2000 5 15));
    [reflexivity|by vm_compute].
Defined.

Lemma calculateAge_sign_witness :
  exists a,
    calculateAge (Date.MakeDay 2024 5 14) (str "2000") (str "06") (str "15") = Num a
    /\ (Date.MakeDay 2000 5 15 <= Date.MakeDay 2024 5 14 <-> 0 <= a)
    /\ (Date.MakeDay 2024 5 14 = Date.MakeDay 2000 5 15 -> a = 0).
Proof.
  apply (calculateAge_sign (Date.MakeDay 2024 5 14)
           (str "2000") (str "06") (str "15") (Date.MakeDay 2000 5 15)).
  reflexivity.
Defined.

Lemma calculateAge_day_overflow_witness :
  calculateAge (Date.MakeDay 2024 1 29) (str "2001") (str "02") (str "29")
  = calculateAge (Date.MakeDay 2024 1 29) (str "2001") (str "03") (str "1").
Proof.
  apply (calculateAge_day_overflow (Date.MakeDay 2024 1 29)
           (str "2001") (str "02") (str "29") (str "03") (str "1") 2001 2 29);
    try reflexivity; lia.
Defined.

Lemma validate_age_bad_month_witness :
  validate_age Sample.june2024 Cases.badMonth
  = {| status := 200; json := AgeReport NaN true [] |}.
Proof.
  apply (validate_age_bad_month Sample.june2024 Cases.badMonth); reflexivity.
Defined.

End AgeOverTime.

(** ** The handlers on the collection *)

Section Handlers.
Import Js Server.

Lemma findOne_true name dob (db : Collection) :
  findOne name dob db = true <-> Registry.taken name dob db.
Proof. unfold findOne. by rewrite bool_decide_eq_true. Qed.

Lemma findOne_false name dob (db : Collection) :
  findOne name dob db = false <-> ~ Registry.taken name dob db.
Proof. unfold findOne. by rewrite bool_decide_eq_false. Qed.

(** What the schema requires of a document beyond the chain. *)
Lemma validate_newUser bootYear clock b name dob tob place h w sign created :
  registrationValidation bootYear b = [] -> bootYear <= 275000 ->
  fullName b = str name -> dateOfBirth b = Some dob ->
  Schema.validate {|
    Schema.fullName := str (trim name);
    Schema.dateOfBirth := dob;
    Schema.timeOfBirth := tob;
    Schema.birthPlace := place;
    Schema.gender := gender b;
    Schema.height := h;
    Schema.weight := w;
    Schema.astrological_sign := sign;
    Schema.age := calculateAge (today clock) (year dob) (month dob) (day dob);
    Schema.createdAt := created;
    Schema.status := "active" |}
  = if String.eqb (trim name) "" then ["fullName"] else [].
Proof.
  intros Hv Hboot Hname Hdob.
  destruct (validated_age bootYear clock b dob Hv Hboot Hdob) as [a Ha].
  pose proof Hv as Hv'.
  unfold registrationValidation in Hv'.
  apply app_eq_nil in Hv' as [_ Hv'].
  apply app_eq_nil in Hv' as [Hyear Hv'].
  apply app_eq_nil in Hv' as [Hmonth Hv'].
  apply app_eq_nil in Hv' as [Hday Hv'].
  apply app_eq_nil in Hv' as [Hgender _].
  rewrite Hdob in *. cbn [path] in *.
  apply runChain_cons in Hyear as [Hyear _].
  apply runChain_cons in Hmonth as [Hmonth _].
  apply runChain_cons in Hday as [Hday _].
  destruct (validated_request _ _ Hv) as (_ & _ & _ & _ & _ & _ & _ & _ & _ & _ & _ & _ & _ & Hg).
  unfold Schema.validate, Schema.validatePaths, Schema.required. cbn.
  rewrite Ha.
  unfold notEmpty in *.
  destruct (year dob) as [|ys], (month dob) as [|ms], (day dob) as [|ds];
    try discriminate; cbn in *.
  rewrite Hyear, Hmonth, Hday.
  destruct Hg as [-> | ->]; cbn; by destruct (String.eqb (trim name) "").
Qed.

Lemma fresh_absent (db : Collection) : db !! fresh (dom db) = None.
Proof. apply not_elem_of_dom, is_fresh. Qed.

Lemma register_created_shape bootYear clock b (db : Collection) :
  status (fst (register bootYear clock b db)) = 201 ->
  exists name dob id u,
    fullName b = str name /\ dateOfBirth b = Some dob
    /\ db !! id = None
    /\ register bootYear clock b db
       = ({| status := 201;
             json := Registered "User registered successfully" id u |},
          <[id := u]> db)
    /\ Schema.fullName u = str (trim name)
    /\ Schema.dateOfBirth u = dob
    /\ Schema.gender u = gender b
    /\ Schema.age u = calculateAge (today clock) (year dob) (month dob) (day dob)
    /\ Schema.createdAt u = timestamp clock
    /\ Schema.status u = "active"
    /\ ~ Registry.taken (trim name) dob db.
Proof.
  unfold register.
  case_bool_decide as Hv; cbn [negb]; [|discriminate].
  destruct (dateOfBirth b) as [dob|]; [|discriminate].
  destruct (0 <? length _)%nat; [discriminate|].
  destruct (fullName b) as [|name]; [discriminate|].
  destruct (findOne (trim name) dob db) eqn:Hdup; [discriminate|].
  destruct (Schema.validate _) eqn:Hs; [|discriminate].
  intros _. eexists name, dob, (fresh (dom db)), _.
  repeat (split; [reflexivity|]).
  split; [apply fresh_absent|].
  repeat (split; [reflexivity|]).
  by apply findOne_false.
Qed.

Ltac table :=
  cbn; repeat split; try discriminate; try tauto; try done;
  intros; intuition (try discriminate; try done).


(** X8. Posting a form again after it was registered answers 409 and
    adds nothing, as long as the age check still passes. *)
Theorem register_twice bootYear clock clock' b (db : Collection) dob :
  status (fst (register bootYear clock b db)) = 201 ->
  dateOfBirth b = Some dob ->
  validateAge (calculateAge (today clock') (year dob) (month dob) (day dob))
    (gender b) = [] ->
  register bootYear clock' b (snd (register bootYear clock b db))
  = (userExists, snd (register bootYear clock b db)).
Proof.
  intros H201 Hdob Hage.
  destruct (register_created_shape _ _ _ _ H201)
    as (name & dob' & id & u & Hname & Hdob' & Hid & Hr & Hn & Hd & _).
  rewrite Hdob in Hdob'. injection Hdob' as <-.
  rewrite Hr. cbn [snd].
  assert (Hv : registrationValidation bootYear b = []).
  { revert H201. unfold register. case_bool_decide; [done|discriminate]. }
  unfold register. rewrite bool_decide_eq_true_2 by done. cbn [negb].
  rewrite Hdob, Hage, Hname. cbn [length Nat.ltb Nat.leb].
  replace (findOne (trim name) dob (<[id:=u]> db)) with true; [done|].
  symmetry. apply findOne_true. exists id, u.
  split; [apply lookup_insert_eq|].
  unfold sameRegistrant. by rewrite Hn, Hd.
Qed.

(** X9. Deleting the identifier a registration answered with restores
    the collection as it was before the registration. *)
Theorem register_delete bootYear clock b (db : Collection) id u message :
  fst (register bootYear clock b db)
  = {| status := 201; json := Registered message id u |} ->
  delete (Some id) (snd (register bootYear clock b db))
  = ({| status := 200;
        json := Deleted "User deleted successfully" id (Schema.fullName u) |},
     db).
Proof.
  intros Hr.
  assert (H201 : status (fst (register bootYear clock b db)) = 201)
    by (by rewrite Hr).
  destruct (register_created_shape _ _ _ _ H201)
    as (name & dob & id' & u' & _ & _ & Hid & Hreg & _).
  rewrite Hreg in *. cbn [fst snd] in *. injection Hr as <- <- <-.
  unfold delete. rewrite lookup_insert_eq.
  f_equal. by apply delete_insert_id.
Qed.

(** X10. [DELETE /api/users/:id] on a stored identifier answers 200 with
    the identifier and name, removes that document and no other; a
    second delete of the same identifier answers 404 and changes
    nothing. *)
Theorem delete_once (db : Collection) i u :
  db !! i = Some u ->
  let r := delete (Some i) db in
  fst r = {| status := 200;
             json := Deleted "User deleted successfully" i (Schema.fullName u) |}
  /\ snd r !! i = None
  /\ (forall j, j <> i -> snd r !! j = db !! j)
  /\ delete (Some i) (snd r)
     = ({| status := 404; json := Error "User not found" |}, snd r).
Proof.
  intros Hi r. subst r. unfold Server.delete. rewrite Hi. cbn [fst snd].
  split; [done|]. split; [apply lookup_delete_eq|].
  split; [intros j Hj; by apply lookup_delete_ne|].
  by rewrite lookup_delete_eq.
Qed.

(** X12. [PUT /api/users/:id] never adds or removes a document: the
    identifiers stay the same, and every document other than the
    addressed one stays as it is. *)
Theorem update_keeps_identifiers bootYear clock id b (db : Collection) :
  dom (snd (update bootYear clock id b db)) = dom db
  /\ forall i, id <> Some i -> snd (update bootYear clock id b db) !! i = db !! i.
Proof.
  unfold update. repeat case_match; cbn [snd]; split; try done.
  - apply set_eq. intros j. rewrite dom_insert, elem_of_union, elem_of_singleton.
    split; [intros [->|]; [by apply elem_of_dom|done]|auto].
  - intros j Hj. apply lookup_insert_ne. congruence.
Qed.

Lemma update_applied_shape bootYear clock id b (db : Collection) :
  status (fst (update bootYear clock id b db)) = 200 ->
  exists i old name dob,
    id = Some i /\ db !! i = Some old
    /\ fullName b = str name /\ dateOfBirth b = Some dob
    /\ let age := calculateAge (today clock) (year dob) (month dob) (day dob) in
       let new := applyUpdate name dob b age old in
       update bootYear clock id b db
       = ({| status := 200; json := Updated "User updated successfully" new |},
          <[i := new]> db)
       /\ validateAge age (gender b) = []
       /\ Schema.validatePaths (str (trim name)) dob (gender b) age = []
       /\ Schema.fullName new = str (trim name)
       /\ Schema.dateOfBirth new = dob
       /\ Schema.gender new = gender b
       /\ Schema.age new = age
       /\ Schema.createdAt new = Schema.createdAt old
       /\ Schema.status new = Schema.status old.
Proof.
  unfold update.
  case_bool_decide as Hv; cbn [negb]; [|discriminate].
  destruct (dateOfBirth b) as [dob|]; [|discriminate].
  destruct (validateAge _ (gender b)) as [|e errors] eqn:Hage; [|discriminate].
  cbn [length Nat.ltb Nat.leb].
  destruct (fullName b) as [|name]; [discriminate|].
  destruct id as [i|]; [|discriminate].
  destruct (Schema.validatePaths _ _ _ _) eqn:Hs; [|discriminate].
  destruct (db !! i) as [old|] eqn:Hi; [|discriminate].
  intros _. exists i, old, name, dob.
  split; [reflexivity|]. split; [exact Hi|].
  split; [reflexivity|]. split; [reflexivity|].
  cbv zeta. split; [reflexivity|]. split; [exact Hage|]. split; [exact Hs|].
  destruct (validatePaths_passed _ _ _ _ Hs) as [[Hg|Hg] _];
    cbn; rewrite ?Hg; by repeat split.
Qed.

Lemma register_unchanged bootYear clock b (db : Collection) :
  status (fst (register bootYear clock b db)) <> 201 ->
  snd (register bootYear clock b db) = db.
Proof. unfold register. repeat case_match; cbn; congruence. Qed.

Lemma update_unchanged bootYear clock id b (db : Collection) :
  status (fst (update bootYear clock id b db)) <> 200 ->
  snd (update bootYear clock id b db) = db.
Proof. unfold update. repeat case_match; cbn; congruence. Qed.

(** X13. Registration and deletion keep full name and date of birth
    unique among the stored documents. *)
Theorem register_keeps_unique bootYear clock b id (db : Collection) :
  Registry.unique db ->
  Registry.unique (snd (register bootYear clock b db))
  /\ Registry.unique (snd (delete id db)).
Proof.
  intros Hu. split.
  - destruct (Z.eq_dec (status (fst (register bootYear clock b db))) 201)
      as [H201|Hne]; [|by rewrite register_unchanged].
    destruct (register_created_shape _ _ _ _ H201)
      as (name & dob & k & u & _ & _ & Hk & -> & Hn & Hd & _ & _ & _ & _ & Hfree).
    cbn [snd]. intros i j x y Hi Hj Hxy.
    assert (Hclash : forall l z, db !! l = Some z ->
              Registry.sameKey u z \/ Registry.sameKey z u -> False).
    { intros l z Hl Hs. apply Hfree. exists l, z. split; [done|].
      unfold sameRegistrant, Registry.sameKey in *. rewrite Hn, Hd in Hs.
      destruct Hs as [(? & ? & ? & ?)|(? & ? & ? & ?)]; by repeat split. }
    destruct (decide (i = k)) as [->|Hik], (decide (j = k)) as [->|Hjk];
      [done| | |].
    + rewrite lookup_insert_eq in Hi. rewrite lookup_insert_ne in Hj by done.
      injection Hi as <-. exfalso. eauto.
    + rewrite lookup_insert_eq in Hj. rewrite lookup_insert_ne in Hi by done.
      injection Hj as <-. exfalso. eauto.
    + rewrite lookup_insert_ne in Hi, Hj by done. eauto.
  - unfold Server.delete. repeat case_match; cbn [snd]; try done.
    intros i j x y Hi Hj Hxy.
    apply lookup_delete_Some in Hi as [_ Hi], Hj as [_ Hj]. eauto.
Qed.

(** X14. Update does no duplicate lookup: a successful update that gives
    a document the name and date of birth of another stored document
    leaves two documents with the same name and date of birth. *)
Theorem update_duplicates bootYear clock i j b (db : Collection) v name dob :
  status (fst (update bootYear clock (Some i) b db)) = 200 ->
  fullName b = str name -> dateOfBirth b = Some dob ->
  j <> i -> db !! j = Some v -> sameRegistrant (trim name) dob v ->
  ~ Registry.unique (snd (update bootYear clock (Some i) b db)).
Proof.
  intros H200 Hname Hdob Hji Hj (Hvn & Hvy & Hvm & Hvd) Hu.
  destruct (update_applied_shape _ _ _ _ _ H200)
    as (i' & old & name' & dob' & Hid & Hi & Hname' & Hdob' & Hr & _ & _ & Hn & Hd & _).
  injection Hid as <-.
  rewrite Hname in Hname'. injection Hname' as <-.
  rewrite Hdob in Hdob'. injection Hdob' as <-.
  rewrite Hr in Hu. cbn [snd] in Hu.
  apply Hji. symmetry.
  eapply (Hu i j); [apply lookup_insert_eq|by rewrite lookup_insert_ne|].
  unfold Registry.sameKey. by rewrite Hn, Hd, Hvn, Hvy, Hvm, Hvd.
Qed.

Lemma handle_keeps_valid bootYear clock r (db : Collection) :
  map_Forall (fun _ u => Schema.validate u = []) db ->
  map_Forall (fun _ u => Schema.validate u = [])
    (snd (handle bootYear clock r db)).
Proof.
  intros IH.
  destruct r as [b|id b|id|q]; cbn [handle snd]; [| | |done].
  - unfold register. repeat case_match; cbn [snd]; try done.
    by apply map_Forall_insert_2.
  - destruct (Z.eq_dec (status (fst (update bootYear clock id b db))) 200)
      as [H200|Hne].
    + destruct (update_applied_shape _ _ _ _ _ H200)
        as (i & old & name & dob & _ & Hi & _ & _ & Hr & _ & Hp & Hn & Hd & Hg
            & Ha & _ & Hst).
      rewrite Hr. cbn [snd]. apply map_Forall_insert_2; [|done].
      specialize (IH i old Hi). unfold Schema.validate in *.
      apply app_eq_nil in IH as [_ IH].
      by rewrite Hn, Hd, Hg, Ha, Hst, Hp, IH.
    + by rewrite update_unchanged.
  - unfold Server.delete. repeat case_match; cbn [snd]; try done.
    by apply map_Forall_delete.
Qed.




(** X7. A 201 answer of [POST /api/register] means one document was
    added: it sits under an identifier that was free, every other
    identifier holds what it held, and the collection has one document
    more. The document carries the trimmed name, the submitted date of
    birth and gender, the age computed at that moment, the clock's time
    stamp and the status [active], and no stored document had that name
    and date of birth. *)
Theorem register_created bootYear clock b (db : Collection) :
  status (fst (register bootYear clock b db)) = 201 ->
  let r := register bootYear clock b db in
  exists name dob id u,
    fullName b = str name /\ dateOfBirth b = Some dob
    /\ json (fst r) = Registered "User registered successfully" id u
    /\ db !! id = None
    /\ snd r !! id = Some u
    /\ (forall j, j <> id -> snd r !! j = db !! j)
    /\ size (snd r) = S (size db)
    /\ Schema.fullName u = str (trim name)
    /\ Schema.dateOfBirth u = dob
    /\ Schema.gender u = gender b
    /\ Schema.age u = calculateAge (today clock) (year dob) (month dob) (day dob)
    /\ Schema.createdAt u = timestamp clock
    /\ Schema.status u = "active"
    /\ ~ Registry.taken (trim name) dob db.
Proof.
  intros H201 r. subst r.
  destruct (register_created_shape _ _ _ _ H201)
    as (name & dob & id & u & Hname & Hdob & Hid & Hr & Hfields).
  exists name, dob, id, u. rewrite Hr. cbn [fst snd json].
  split; [done|]. split; [done|]. split; [done|]. split; [done|].
  split; [apply lookup_insert_eq|].
  split; [intros j Hj; by apply lookup_insert_ne|].
  split; [by apply map_size_insert_None|].
  exact Hfields.
Qed.

(** X11. A 200 answer of [PUT /api/users/:id] means the addressed
    document was stored and is replaced, every other identifier holding
    what it held and the number of documents unchanged. The new
    document carries the trimmed name, the submitted date of birth and
    gender, the age recomputed at that moment, which passes
    [validateAge], and the creation time and status of the old one. *)
Theorem update_applied bootYear clock id b (db : Collection) :
  status (fst (update bootYear clock id b db)) = 200 ->
  let r := update bootYear clock id b db in
  exists i old new name dob,
    id = Some i /\ db !! i = Some old
    /\ fullName b = str name /\ dateOfBirth b = Some dob
    /\ json (fst r) = Updated "User updated successfully" new
    /\ snd r !! i = Some new
    /\ (forall j, j <> i -> snd r !! j = db !! j)
    /\ size (snd r) = size db
    /\ validateAge (Schema.age new) (Schema.gender new) = []
    /\ Schema.fullName new = str (trim name)
    /\ Schema.dateOfBirth new = dob
    /\ Schema.gender new = gender b
    /\ Schema.age new = calculateAge (today clock) (year dob) (month dob) (day dob)
    /\ Schema.createdAt new = Schema.createdAt old
    /\ Schema.status new = Schema.status old.
Proof.
  intros H200 r. subst r.
  destruct (update_applied_shape _ _ _ _ _ H200)
    as (i & old & name & dob & Hid & Hi & Hname & Hdob & Hr & Hage & _
        & Hn & Hd & Hg & Ha & Hc & Hs).
  exists i, old,
    (applyUpdate name dob b
       (calculateAge (today clock) (year dob) (month dob) (day dob)) old),
    name, dob.
  rewrite Hr. cbn [fst snd json].
  split; [done|]. split; [done|]. split; [done|]. split; [done|].
  split; [done|].
  split; [apply lookup_insert_eq|].
  split; [intros j Hj; by apply lookup_insert_ne|].
  split; [by apply map_size_insert_Some|].
  split; [by rewrite Ha, Hg|].
  by repeat split.
Qed.

(** X15. Every document of a reachable collection passes the schema: a
    non-empty name, the three date components set, a gender of Male or
    Female, an age that is a number and a status of the enum. *)
Theorem stored_documents_valid bootYear (db : Collection) :
  reachable bootYear db ->
  map_Forall (fun _ u => Schema.validate u = []) db.
Proof.
  induction 1 as [|clock r db _ IH].
  - apply map_Forall_empty.
  - by apply handle_keeps_valid.
Qed.

Lemma valid_registered :
  map_Forall (fun _ u => Schema.validate u = []) Sample.registered.
Proof.
  apply (handle_keeps_valid 2024 Sample.june2024 (PostRegister Sample.john) ∅).
  apply map_Forall_empty.
Defined.

Lemma reachable_registered : reachable 2024 Sample.registered.
Proof.
  apply (reachable_step 2024 Sample.june2024 (PostRegister Sample.john) ∅).
  apply reachable_empty.
Defined.

Lemma unique_empty : Registry.unique (∅ : Collection).
Proof. intros i j u v Hi. rewrite lookup_empty in Hi. discriminate Hi. Defined.


Lemma register_created_witness :
  exists id u,
    json (fst (register 2024 Sample.june2024 Sample.john ∅))
    = Registered "User registered successfully" id u.
Proof.
  assert (H201 : status (fst (register 2024 Sample.june2024 Sample.john ∅)) = 201)
    by (vm_compute; reflexivity).
  destruct (register_created 2024 Sample.june2024 Sample.john ∅ H201)
    as (name & dob & id & u & _ & _ & Hr & _).
  exists id, u. exact Hr.
Defined.

Lemma register_twice_witness :
  register 2024 Sample.june2024 Sample.john Sample.registered
  = (userExists, Sample.registered).
Proof.
  apply (register_twice 2024 Sample.june2024 Sample.june2024 Sample.john ∅
           {| year := str "1984"; month := str "06"; day := str "15" |});
    reflexivity.
Defined.

Lemma register_delete_witness :
  delete (Some 1%positive) Sample.registered
  = ({| status := 200;
        json := Deleted "User deleted successfully" 1%positive
                  (Schema.fullName Sample.johnStored) |},
     ∅).
Proof.
  apply (register_delete 2024 Sample.june2024 Sample.john ∅ 1%positive
           Sample.johnStored "User registered successfully").
  reflexivity.
Defined.

Lemma delete_once_witness :
  snd (delete (Some 1%positive) Sample.registered) !! 1%positive = None.
Proof.
  apply (delete_once Sample.registered 1%positive Sample.johnStored).
  reflexivity.
Defined.

Lemma update_applied_witness :
  exists i old, Some 2%positive = Some i /\ Cases.twoUsers !! i = Some old.
Proof.
  assert (H200 : status (fst (update 2024 Sample.june2024 (Some 2%positive)
                                Sample.john Cases.twoUsers)) = 200)
    by (vm_compute; reflexivity).
  destruct (update_applied 2024 Sample.june2024 (Some 2%positive) Sample.john
              Cases.twoUsers H200)
    as (i & old & _ & _ & _ & Hid & Hi & _).
  exists i, old. exact (conj Hid Hi).
Defined.

Lemma update_keeps_identifiers_witness :
  dom (snd (update 2024 Sample.june2024 (Some 2%positive) Sample.john
              Cases.twoUsers))
  = dom Cases.twoUsers.
Proof.
  apply (update_keeps_identifiers 2024 Sample.june2024 (Some 2%positive)
           Sample.john Cases.twoUsers).
Defined.

Lemma register_keeps_unique_witness :
  Registry.unique (snd (register 2024 Sample.june2024 Sample.john ∅)).
Proof.
  exact (proj1 (register_keeps_unique 2024 Sample.june2024 Sample.john None ∅
                  unique_empty)).
Defined.

Lemma update_duplicates_witness :
  ~ Registry.unique
      (snd (update 2024 Sample.june2024 (Some 2%positive) Sample.john
              Cases.twoUsers)).
Proof.
  apply (update_duplicates 2024 Sample.june2024 2%positive 1%positive
           Sample.john Cases.twoUsers Sample.johnStored "John Doe"
           {| year := str "1984"; month := str "06"; day := str "15" |});
    try reflexivity; [discriminate|by vm_compute].
Defined.

Lemma stored_documents_valid_witness :
  map_Forall (fun _ u => Schema.validate u = []) Sample.registered.
Proof. apply (stored_documents_valid 2024). exact reachable_registered. Defined.



End Handlers.

(** ** The form against the server *)

Section FormAndServer.
Import Js Server.

(** X5. What passes [registrationValidation]: a name of 2 to 50 letters
    and spaces, a year from 1940 to the boot year, a month and a day
    that are integers in 1..12 and 1..31, a gender of Male or Female, a
    birth place of at most 100 characters when there is one, and an hour
    and a minute in range when they are given. *)
Theorem registrationValidation_admits bootYear b :
  registrationValidation bootYear b = [] ->
  exists name dob y m d,
    fullName b = str name
    /\ (2 <= String.length name <= 50)%nat
    /\ forallb (fun c => isLetter c || isSpace c) (list_ascii_of_string name) = true
    /\ dateOfBirth b = Some dob
    /\ ToNumber (year dob) = Num y /\ 1940 <= y <= bootYear
    /\ parseInt (month dob) = Num m /\ 1 <= m <= 12
    /\ ToNumber (day dob) = Num d /\ 1 <= d <= 31
    /\ (gender b = str "Male" \/ gender b = str "Female")
    /\ (forall place, birthPlace b = str place -> (String.length place <= 100)%nat)
    /\ (forall t, timeOfBirth b = Some t ->
          (hour t = undefined \/ exists h, ToNumber (hour t) = Num h /\ 0 <= h <= 23)
          /\ (minute t = undefined
              \/ exists n, ToNumber (minute t) = Num n /\ 0 <= n <= 59)).
Proof.
  intros Hv.
  destruct (validated_request _ _ Hv)
    as (name & dob & y & m & d & Hname & Hdob & Hy & Hyr & Hm & Hmr & Hd & Hdr & Hg).
  exists name, dob, y, m, d.
  unfold registrationValidation in Hv.
  apply app_eq_nil in Hv as [Hn Hv].
  do 4 apply app_eq_nil in Hv as [_ Hv].
  apply app_eq_nil in Hv as [Hplace Hv].
  apply app_eq_nil in Hv as [Hhour Hminute].
  rewrite Hname in Hn.
  apply runChain_cons in Hn as [_ Hn].
  apply runChain_cons in Hn as [Hlen Hn].
  apply runChain_cons in Hn as [Hre _].
  split; [done|]. split.
  { unfold isLength in Hlen. cbn [toString] in Hlen.
    apply andb_true_iff in Hlen as [H1 H2].
    apply Nat.leb_le in H1, H2. lia. }
  split.
  { unfold matchesName in Hre. cbn [toString] in Hre. by destruct name. }
  repeat (split; [done|]). split.
  { intros place Hp. rewrite Hp in Hplace. cbn [optional] in Hplace.
    apply runChain_cons in Hplace as [Hmax _].
    unfold isLength in Hmax. cbn [toString] in Hmax.
    apply andb_true_iff in Hmax as [_ H2]. by apply Nat.leb_le in H2. }
  intros t Ht. rewrite Ht in Hhour, Hminute. cbn [path] in *. split.
  - destruct (hour t) as [|h] eqn:Hh; [by left|right].
    cbn [optional] in Hhour. apply runChain_cons in Hhour as [Hi _].
    by apply isInt_ToNumber in Hi.
  - destruct (minute t) as [|n] eqn:Hn'; [by left|right].
    cbn [optional] in Hminute. apply runChain_cons in Hminute as [Hi _].
    by apply isInt_ToNumber in Hi.
Qed.

Lemma validateForm_passed form av :
  snd (Form.validateForm form av) = true ->
  fst (Form.validateForm form av) = ∅
  /\ trim (Client.fullName form) <> ""
  /\ Spec.dateComplete (Client.dateOfBirth form)
  /\ Client.gender form <> ""
  /\ av = "".
Proof.
  unfold Form.validateForm, Spec.dateComplete. cbn [fst snd].
  destruct (String.eqb_spec (trim (Client.fullName form)) "") as [Hn|Hn],
    (truthy (year (Client.dateOfBirth form))),
    (truthy (month (Client.dateOfBirth form))),
    (truthy (day (Client.dateOfBirth form))),
    (String.eqb_spec (Client.gender form) "") as [Hg|Hg],
    (String.eqb_spec av "") as [Ha|Ha]; cbn [negb orb];
    intros Hsize; apply bool_decide_eq_true in Hsize;
    apply map_size_empty_iff in Hsize;
    first [ exfalso; revert Hsize; apply insert_non_empty
          | repeat split; assumption ].
Qed.

Lemma runChain_failed check msg (c : Chain) v :
  check v = false -> In msg (runChain ((check, msg) :: c) v).
Proof.
  intros Hc. unfold runChain. cbn [flat_map fst snd]. rewrite Hc. by left.
Qed.

(** X19. A form whose hour or minute is left on its placeholder is never
    registered: if the client sends it, the server answers 400
    "Validation failed" with the hour or minute message, the form is
    kept and the collection is unchanged. *)
Theorem unselected_time_refused bootYear clock form ageValidation (db : Collection) :
  hour (Client.timeOfBirth form) = str ""
  \/ minute (Client.timeOfBirth form) = str "" ->
  let s := Form.handleSubmit bootYear clock form ageValidation db in
  Form.collection s = db
  /\ Form.formData s = form
  /\ (forall r, Form.response s = Some r ->
        exists errors,
          r = validationFailed errors
          /\ (In "Hour must be between 0 and 23" errors
              \/ In "Minute must be between 0 and 59" errors)).
Proof.
  intros Htime s. subst s.
  assert (Herr : In "Hour must be between 0 and 23"
                   (registrationValidation bootYear (Form.requestBody form))
                 \/ In "Minute must be between 0 and 59"
                   (registrationValidation bootYear (Form.requestBody form))).
  { unfold registrationValidation. cbn [Form.requestBody timeOfBirth path].
    destruct Htime as [Ht|Ht]; rewrite Ht; cbn [optional]; [left|right];
      rewrite !in_app_iff; [do 6 right; left|do 7 right];
      by apply runChain_failed. }
  assert (Hreg : register bootYear clock (Form.requestBody form) db
                 = (validationFailed
                      (registrationValidation bootYear (Form.requestBody form)),
                    db)).
  { unfold register.
    rewrite bool_decide_eq_false_2; [done|].
    intros Hnil. rewrite Hnil in Herr. by destruct Herr. }
  unfold Form.handleSubmit.
  destruct (Form.validateForm form ageValidation) as [newErrors []];
    cbn [negb Form.collection Form.formData Form.response].
  - rewrite Hreg. cbn. repeat split. intros r [= <-]. eauto.
  - repeat split. discriminate.
Qed.

(** X20. The server never answers "Age validation failed" to a form the
    client submits once its age effect has run on the same day. *)
Theorem submitted_form_passes_age_check bootYear clock form prev
    (db : Collection) r errors :
  Form.response
    (Form.handleSubmit bootYear clock form
       (Client.ageEffect (today clock) form prev) db) = Some r ->
  r <> ageValidationFailed errors.
Proof.
  unfold Form.handleSubmit.
  destruct (Form.validateForm form _) as [newErrors valid] eqn:Hvf.
  destruct valid; cbn [negb]; [|discriminate].
  assert (Hok : snd (Form.validateForm form
                       (Client.ageEffect (today clock) form prev)) = true)
    by (by rewrite Hvf).
  apply validateForm_passed in Hok as (_ & _ & Hdate & _ & Heffect).
  rewrite ageEffect_calculateAge in Heffect by done. cbv zeta in Heffect.
  destruct (register bootYear clock (Form.requestBody form) db) as [res db'] eqn:Hreg.
  cbn [Form.response]. intros [= <-]. revert Hreg.
  unfold register.
  case_bool_decide as Hv; cbn [negb]; [|by intros [= <- _]].
  destruct (validated_request _ _ Hv) as (_ & _ & _ & _ & _ & _ & _ & _ & _ & _ & _ & _ & _ & Hg).
  cbn [Form.requestBody dateOfBirth gender fullName] in *.
  replace (validateAge _ (str (Client.gender form))) with (@nil string).
  { cbn [length Nat.ltb Nat.leb]. repeat case_match; by intros [= <- _]. }
  symmetry. revert Heffect.
  destruct (calculateAge _ _ _ _) as [|a].
  - intros _. unfold validateAge, gt, lt. by rewrite !andb_false_r.
  - rewrite validateAge_Num. cbn [lt gt].
    destruct Hg as [[= ->]|[= ->]]; cbn;
      destruct (Z.ltb_spec a 21), (Z.ltb_spec a 18), (Z.ltb_spec 40 a);
      cbn; try lia; done.
Qed.

Lemma validateForm_keys form av k :
  k <> "fullName" -> k <> "dateOfBirth" -> k <> "gender" ->
  k <> "ageValidation" ->
  fst (Form.validateForm form av) !! k = None.
Proof.
  intros H1 H2 H3 H4. unfold Form.validateForm. cbn [fst].
  repeat case_match; rewrite ?lookup_insert_ne by done; apply lookup_empty.
Qed.

(** X21. [handleInputChange] sets the field it names and no other, and
    leaves no message under that field's name; as the messages of
    [validateForm] are stored under [fullName], [dateOfBirth], [gender]
    and [ageValidation], editing any field other than the name and the
    gender leaves [errors] as it was, the date of birth message
    included. *)
Theorem handleInputChange_effect f v form form0 av :
  let errors := fst (Form.validateForm form0 av) in
  let r := Form.handleInputChange f v form errors in
  Form.getField f (fst r) = str v
  /\ (forall g, g <> f -> Form.getField g (fst r) = Form.getField g form)
  /\ Form.hasError (snd r) (Form.fieldName f) = false
  /\ (f <> Form.FullName -> f <> Form.Gender -> snd r = errors).
Proof.
  intros errors r. subst r. unfold Form.handleInputChange. cbn [fst snd].
  split; [by destruct f|].
  split; [intros g Hg; by destruct f, g|].
  assert (Hclear : forall k,
    Form.hasError
      (if Form.hasError errors k then <[k := ""]> errors else errors) k = false).
  { intros k. destruct (Form.hasError errors k) eqn:Hk; [|done].
    unfold Form.hasError. by rewrite lookup_insert_eq. }
  split; [apply Hclear|].
  intros Hf Hg.
  replace (Form.hasError errors (Form.fieldName f)) with false; [done|].
  symmetry. unfold Form.hasError, errors.
  by rewrite validateForm_keys by (by destruct f).
Qed.

(** X22. Every option of the month, day, hour and minute selects is a
    value the server's validators accept. *)
Theorem form_options_accepted :
  forallb (fun m => isIn months (str m)) Form.months = true
  /\ forallb (fun d => isInt 1 31 (str d)) Form.days = true
  /\ forallb (fun h => isInt 0 23 (str h)) Form.hours = true
  /\ forallb (fun n => isInt 0 59 (str n)) Form.minutes = true.
Proof. by vm_compute. Qed.

Lemma registrationValidation_admits_witness :
  exists name, fullName Sample.john = str name /\ (2 <= String.length name <= 50)%nat.
Proof.
  destruct (registrationValidation_admits 2024 Sample.john eq_refl)
    as (name & _ & _ & _ & _ & Hname & Hlen & _).
  exists name. exact (conj Hname Hlen).
Defined.

Lemma unselected_time_refused_witness :
  Form.collection
    (Form.handleSubmit 2024 Sample.june2024 Cases.johnFormNoHour "" ∅) = ∅.
Proof.
  apply (unselected_time_refused 2024 Sample.june2024 Cases.johnFormNoHour "" ∅).
  left. reflexivity.
Defined.

Lemma submitted_form_passes_age_check_witness :
  {| status := 201;
     json := Registered "User registered successfully" 1%positive
               {| Schema.fullName := str "John Doe";
                  Schema.dateOfBirth :=
                    {| year := str "1984"; month := str "06"; day := str "15" |};
                  Schema.timeOfBirth :=
                    Some {| hour := str "10"; minute := str "30" |};
                  Schema.birthPlace := str "Pune";
                  Schema.gender := str "Male";
                  Schema.height := str "";
                  Schema.weight := str "";
                  Schema.astrological_sign := str "";
                  Schema.age := Num 40;
                  Schema.createdAt := 1718409600000;
                  Schema.status := "active" |} |}
  <> ageValidationFailed [].
Proof.
  apply (submitted_form_passes_age_check 2024 Sample.june2024 Cases.johnForm ""
           ∅).
  reflexivity.
Defined.

Lemma handleInputChange_effect_witness :
  Form.getField Form.DobYear
    (fst (Form.handleInputChange Form.DobYear "1990" Form.emptyForm
            (fst (Form.validateForm Form.emptyForm ""))))
  = str "1990".
Proof.
  apply (handleInputChange_effect Form.DobYear "1990" Form.emptyForm
           Form.emptyForm "").
Defined.

End FormAndServer.
